(** * The signal engine of [technical_analysis.py]

    A shallow embedding of [TechnicalAnalyzer]: the tabular path
    ([analyze_csv_data], [_calculate_indicators], [_find_support_resistance],
    [_generate_signal_from_indicators]), the image path
    ([analyze_chart_image], [_detect_chart_patterns],
    [_generate_image_based_signal]) and [_generate_error_signal].

    Numbers.  A Python/numpy float is modelled by an exact rational extended
    with NaN and the two infinities ([Float.float]).  Comparisons, [min],
    [max], [abs], NaN propagation and division by zero follow IEEE 754 as
    numpy scalars implement it; binary64 rounding error, overflow and the sign
    of zero are not modelled, so [x * 1.02] is the exact product and
    [round(x, 2)] is the exact decimal rounding, ties to even.

    Results.  Every method returns a Python dict literal; it is modelled as an
    association list in insertion order ([dict]).

    Libraries.  The analyzer calls pandas, ta, OpenCV and numpy.
    - pandas: a frame is its list of column labels, which may repeat, and its
      rows.  [df[col]] is a Series when the label occurs once and a frame of
      several columns when it is repeated; [pd.to_numeric] raises TypeError
      on a frame; [dropna], [tail], [min], [max] and [iloc] are written out.
    - ta: the simple moving average is written out (a rolling mean that is
      NaN until the window is full); the other indicators are fields of
      [ta.library], arbitrary total functions of the series.
    - OpenCV and numpy: the segment detection and [arctan2] are parameters of
      the image path; the draw of [np.random.uniform] is an argument.
    Labels are ASCII: [str.lower] and [str.strip] leave other bytes alone. *)

From Stdlib Require Import ZArith QArith Qround Qabs List String Ascii Bool.
From Stdlib Require Import Lia Lqa.
From Stdlib Require Import DecimalString DecimalPos DecimalZ.
Import ListNotations.

(* ================================================================== *)
(** ** Floats *)

Module Float.

Inductive float : Type :=
| NaN
| NegInf
| Fin (q : Q)
| PosInf.

Definition of_Z (z : Z) : float := Fin (inject_Z z).

(** Sign of a value, [0] for zero and for NaN. *)
Definition sign (x : float) : Z :=
  match x with
  | NaN => 0
  | NegInf => -1
  | Fin q => Z.sgn (Qnum q)
  | PosInf => 1
  end.

(** The infinity of a given sign; the sign [0] stands for an invalid
    operation ([inf * 0], [0 / 0]), whose result is NaN. *)
Definition of_sign (s : Z) : float :=
  match s with
  | Z0 => NaN
  | Zpos _ => PosInf
  | Zneg _ => NegInf
  end.

(** IEEE comparison: unordered ([None]) as soon as one side is NaN. *)
Definition compare (x y : float) : option comparison :=
  match x, y with
  | NaN, _ | _, NaN => None
  | NegInf, NegInf => Some Eq
  | NegInf, _ => Some Lt
  | PosInf, PosInf => Some Eq
  | PosInf, _ => Some Gt
  | Fin _, NegInf => Some Gt
  | Fin _, PosInf => Some Lt
  | Fin a, Fin b => Some (a ?= b)%Q
  end.

(** [x < y], [x > y], [x <= y] as Python evaluates them. *)
Definition ltb (x y : float) : bool :=
  match compare x y with Some Lt => true | _ => false end.
Definition gtb (x y : float) : bool := ltb y x.
Definition leb (x y : float) : bool :=
  match compare x y with Some Lt | Some Eq => true | _ => false end.

Definition is_nan (x : float) : bool :=
  match x with NaN => true | _ => false end.

Definition opp (x : float) : float :=
  match x with
  | NaN => NaN
  | NegInf => PosInf
  | Fin q => Fin (- q)
  | PosInf => NegInf
  end.

Definition add (x y : float) : float :=
  match x, y with
  | NaN, _ | _, NaN => NaN
  | Fin a, Fin b => Fin (a + b)
  | PosInf, NegInf | NegInf, PosInf => NaN
  | PosInf, _ | _, PosInf => PosInf
  | NegInf, _ | _, NegInf => NegInf
  end.

Definition sub (x y : float) : float := add x (opp y).

Definition mul (x y : float) : float :=
  match x, y with
  | NaN, _ | _, NaN => NaN
  | Fin a, Fin b => Fin (a * b)
  | _, _ => of_sign (sign x * sign y)
  end.

(** numpy scalar division: [x / 0] is an infinity (NaN for [0 / 0]) and
    raises nothing. *)
Definition div (x y : float) : float :=
  match x, y with
  | NaN, _ | _, NaN => NaN
  | Fin a, Fin b =>
      if Qeq_bool b 0 then of_sign (sign x) else Fin (a / b)
  | Fin _, _ => Fin 0
  | _, Fin b => of_sign (sign x * (if Z.ltb (Qnum b) 0 then -1 else 1))
  | _, _ => NaN
  end.

Definition abs (x : float) : float :=
  match x with
  | NaN => NaN
  | Fin q => Fin (Qabs q)
  | NegInf | PosInf => PosInf
  end.

(** Python's builtin [min(a, b)] and [max(a, b)]: the first argument is
    kept unless the second one compares strictly better. *)
Definition min (a b : float) : float := if ltb b a then b else a.
Definition max (a b : float) : float := if gtb b a then b else a.

(** Nearest integer, ties to the even one. *)
Definition round_half_even (q : Q) : Z :=
  let f := Qfloor q in
  match (q - inject_Z f ?= 1 # 2)%Q with
  | Lt => f
  | Gt => (f + 1)%Z
  | Eq => if Z.even f then f else (f + 1)%Z
  end.

(** [round(x, ndigits)]: NaN and the infinities are returned unchanged. *)
Definition round (x : float) (ndigits : nat) : float :=
  match x with
  | Fin q =>
      let s := Z.to_pos (10 ^ Z.of_nat ndigits) in
      Fin (Qred (round_half_even (q * inject_Z (Zpos s)) # s))
  | _ => x
  end.

End Float.

Import Float.

Declare Scope float_scope.
Delimit Scope float_scope with float.
Bind Scope float_scope with float.
Infix "<?" := Float.ltb (at level 70, no associativity) : float_scope.
Infix ">?" := Float.gtb (at level 70, no associativity) : float_scope.
Infix "<=?" := Float.leb (at level 70, no associativity) : float_scope.
Infix "+" := Float.add : float_scope.
Infix "-" := Float.sub : float_scope.
Infix "*" := Float.mul : float_scope.
Infix "/" := Float.div : float_scope.

(** Float literals of the source. *)
Definition f_ (q : Q) : float := Fin q.
Coercion f_ : Q >-> float.

(* ================================================================== *)
(** ** Python values and dicts *)

#[local] Set Warnings "-register-all".
Inductive value : Type :=
| VBool (b : bool)
| VInt (n : Z)
| VFloat (x : float)
| VStr (s : string)
| VDict (d : list (string * value)).

Definition dict : Type := list (string * value).

(** [d.get(k)] / [d[k]]. *)
Fixpoint get (d : dict) (k : string) : option value :=
  match d with
  | [] => None
  | (k', v) :: d' => if String.eqb k k' then Some v else get d' k
  end.

(** The f-string [f"{n}%"]. *)
Definition percent (n : Z) : string :=
  (NilZero.string_of_int (Z.to_int n) ++ "%")%string.

(* ================================================================== *)
(** ** The scoring engine: [_generate_signal_from_indicators] *)

Inductive Action : Type := BUY | SELL | HOLD.

Definition Action_str (a : Action) : string :=
  match a with
  | BUY => "BUY"
  | SELL => "SELL"
  | HOLD => "HOLD"
  end.

Definition Action_eqb (a b : Action) : bool :=
  match a, b with
  | BUY, BUY | SELL, SELL | HOLD, HOLD => true
  | _, _ => false
  end.

(** [signals.count(a)]. *)
Fixpoint count (a : Action) (signals : list Action) : Z :=
  match signals with
  | [] => 0
  | s :: rest => ((if Action_eqb s a then 1 else 0) + count a rest)%Z
  end.

(** The two lists the rules append to: [signals] and
    [confidence_factors]. *)
Definition tally : Type := (list Action * list Q)%type.

(** One [if buy: ... elif sell: ...] block: it appends one vote and its
    weight, or nothing. *)
Definition vote (buy sell : bool) (weight : Q) (t : tally) : tally :=
  if buy then (fst t ++ [BUY], snd t ++ [weight])
  else if sell then (fst t ++ [SELL], snd t ++ [weight])
  else t.

(** The fifteen float arguments of [_generate_signal_from_indicators]. *)
Record Inputs : Type := {
  current_price : float;
  sma_20 : float;
  sma_50 : float;
  ema_12 : float;
  ema_26 : float;
  rsi : float;
  macd : float;
  macd_signal : float;
  bb_upper : float;
  bb_lower : float;
  bb_middle : float;
  stoch_k : float;
  stoch_d : float;
  support : float;
  resistance : float
}.

Section Rules.

Variable i : Inputs.
Local Open Scope float_scope.

(** Lines 137-143. *)
Definition trend_rule : tally -> tally :=
  vote ((sma_20 i >? sma_50 i) && (ema_12 i >? ema_26 i))
       ((sma_20 i <? sma_50 i) && (ema_12 i <? ema_26 i)) 0.25.

(** Lines 145-151. *)
Definition rsi_rule : tally -> tally :=
  vote (rsi i <? 30%Q) (rsi i >? 70%Q) 0.20.

(** Lines 153-159. *)
Definition macd_rule : tally -> tally :=
  vote ((macd i >? macd_signal i) && (macd i >? 0%Q))
       ((macd i <? macd_signal i) && (macd i <? 0%Q)) 0.15.

(** Lines 161-167. *)
Definition bollinger_rule : tally -> tally :=
  vote (current_price i <? bb_lower i) (current_price i >? bb_upper i) 0.15.

(** Lines 169-175. *)
Definition stochastic_rule : tally -> tally :=
  vote ((stoch_k i <? 20%Q) && (stoch_d i <? 20%Q))
       ((stoch_k i >? 80%Q) && (stoch_d i >? 80%Q)) 0.10.

(** Lines 177-183. *)
Definition proximity_rule : tally -> tally :=
  vote (abs (current_price i - support i) / current_price i <? 0.01%Q)
       (abs (current_price i - resistance i) / current_price i <? 0.01%Q)
       0.15.

(** Lines 134-183: the six rules, in source order. *)
Definition rule_votes : tally :=
  let t : tally := ([], []) in
  let t := trend_rule t in
  let t := rsi_rule t in
  let t := macd_rule t in
  let t := bollinger_rule t in
  let t := stochastic_rule t in
  let t := proximity_rule t in
  t.

Definition signals : list Action := fst rule_votes.
Definition confidence_factors : list Q := snd rule_votes.

(** Lines 186-187. *)
Definition buy_signals : Z := count BUY signals.
Definition sell_signals : Z := count SELL signals.

End Rules.

(** Lines 189-197: the final action and its confidence. *)
Definition final_signal (buy_signals sell_signals : Z) : Action * Z :=
  if (buy_signals >? sell_signals)%Z then
    (BUY, Z.min 95 (60 + buy_signals * 8))
  else if (sell_signals >? buy_signals)%Z then
    (SELL, Z.min 95 (60 + sell_signals * 8))
  else
    (HOLD, 50%Z).

(** Lines 200-210: [(take_profit, stop_loss)] before rounding. *)
Definition price_targets (action : Action) (entry support resistance : float)
  : float * float :=
  match action with
  | BUY => (Float.min resistance (entry * 1.02%Q)%float,
            Float.max support (entry * 0.985%Q)%float)
  | SELL => (Float.max support (entry * 0.98%Q)%float,
             Float.min resistance (entry * 1.015%Q)%float)
  | HOLD => (entry, entry)
  end.

(** Lines 127-228. *)
Definition _generate_signal_from_indicators (i : Inputs) (timeframe : string)
  : dict :=
  let '(action, confidence) :=
    final_signal (buy_signals i) (sell_signals i) in
  let entry := current_price i in
  let '(take_profit, stop_loss) :=
    price_targets action entry (support i) (resistance i) in
  [ ("action", VStr (Action_str action));
    ("entry", VFloat (round entry 2));
    ("take_profit", VFloat (round take_profit 2));
    ("stop_loss", VFloat (round stop_loss 2));
    ("confidence", VStr (percent confidence));
    ("timeframe", VStr timeframe);
    ("indicators",
      VDict [ ("rsi", VFloat (round (rsi i) 2));
              ("macd", VFloat (round (macd i) 4));
              ("sma_20", VFloat (round (sma_20 i) 2));
              ("sma_50", VFloat (round (sma_50 i) 2));
              ("support", VFloat (round (support i) 2));
              ("resistance", VFloat (round (resistance i) 2)) ]);
    ("analysis_type", VStr "technical_indicators") ]%string.

(* ================================================================== *)
(** ** [_generate_error_signal] *)

Definition _generate_error_signal (error_message : string) : dict :=
  [ ("error", VBool true);
    ("message", VStr error_message);
    ("action", VStr "HOLD");
    ("entry", VInt 0);
    ("take_profit", VInt 0);
    ("stop_loss", VInt 0);
    ("confidence", VStr "0%");
    ("analysis_type", VStr "error") ]%string.

(* ================================================================== *)
(** ** Exceptions *)

(** A computation that returns or raises; the payload of [Raise] is
    [str(e)]. *)
Inductive result (A : Type) : Type :=
| Ok (a : A)
| Raise (e : string).
Arguments Ok {A} a.
Arguments Raise {A} e.

Definition bind {A B : Type} (m : result A) (k : A -> result B) : result B :=
  match m with
  | Ok a => k a
  | Raise e => Raise e
  end.

Notation "x <- m ;; k" := (bind m (fun x => k))
  (at level 61, m at next level, right associativity).

(* ================================================================== *)
(** ** Strings: [str.lower] and [str.strip] on ASCII *)

Definition lower_ascii (c : ascii) : ascii :=
  let n := nat_of_ascii c in
  if (65 <=? n)%nat && (n <=? 90)%nat then ascii_of_nat (n + 32) else c.

Fixpoint lower (s : string) : string :=
  match s with
  | EmptyString => EmptyString
  | String c r => String (lower_ascii c) (lower r)
  end.

(** Python's ASCII whitespace: TAB, LF, VT, FF, CR, FS, GS, RS, US, SPACE. *)
Definition is_space (c : ascii) : bool :=
  let n := nat_of_ascii c in
  ((9 <=? n)%nat && (n <=? 13)%nat) || ((28 <=? n)%nat && (n <=? 32)%nat).

Fixpoint lstrip (s : string) : string :=
  match s with
  | EmptyString => EmptyString
  | String c r => if is_space c then lstrip r else s
  end.

Fixpoint rstrip (s : string) : string :=
  match s with
  | EmptyString => EmptyString
  | String c r =>
      match rstrip r with
      | EmptyString => if is_space c then EmptyString else String c EmptyString
      | r' => String c r'
      end
  end.

Definition strip (s : string) : string := rstrip (lstrip s).

(* ================================================================== *)
(** ** The pandas operations the analyzer uses *)

(** A field as [pd.read_csv] delivers it: a number (NaN for an empty
    field), or text that does not parse as a number. *)
Inductive cell : Type :=
| CNum (x : float)
| CText (s : string).

(** A table: the column labels, in order and possibly repeated, and the rows.
    A row shorter than the header reads as NaN beyond its end. *)
Record DataFrame : Type := {
  columns : list string;
  data : list (list cell)
}.

Definition len (df : DataFrame) : nat := List.length (data df).

(** [col in df.columns]. *)
Definition contains (cols : list string) (col : string) : bool :=
  existsb (String.eqb col) cols.

(** [df.rename(columns={old_col: new_col})]. *)
Definition rename (df : DataFrame) (old_col new_col : string) : DataFrame :=
  {| columns := map (fun c => if String.eqb c old_col then new_col else c)
                    (columns df);
     data := data df |}.

(** The positions at which a label occurs. *)
Fixpoint positions_from (i : nat) (col : string) (cols : list string)
  : list nat :=
  match cols with
  | [] => []
  | c :: rest =>
      if String.eqb c col then i :: positions_from (S i) col rest
      else positions_from (S i) col rest
  end.

Definition positions (df : DataFrame) (col : string) : list nat :=
  positions_from 0 col (columns df).

Definition at_ (row : list cell) (i : nat) : cell := nth i row (CNum NaN).

(** What [df[col]] evaluates to: a Series when the label occurs once, a
    two-dimensional frame when it is repeated. *)
Inductive selection : Type :=
| Series (s : list cell)
| Frame (width : nat).

Definition getitem (df : DataFrame) (col : string) : result selection :=
  match positions df col with
  | [] => Raise ("'" ++ col ++ "'")%string
  | [i] => Ok (Series (map (fun row => at_ row i) (data df)))
  | ps => Ok (Frame (List.length ps))
  end.

(** Element-wise [errors='coerce']. *)
Definition coerce (c : cell) : float :=
  match c with
  | CNum x => x
  | CText _ => NaN
  end.

(** [pd.to_numeric(arg, errors='coerce')]: a TypeError for a
    two-dimensional argument. *)
Definition to_numeric (arg : selection) : result (list float) :=
  match arg with
  | Series s => Ok (map coerce s)
  | Frame _ => Raise "arg must be a list, tuple, 1-d array, or Series"
  end.

Fixpoint set_nth (i : nat) (v : cell) (row : list cell) : list cell :=
  match i, row with
  | _, [] => []
  | O, _ :: rest => v :: rest
  | S i', c :: rest => c :: set_nth i' v rest
  end.

(** [df[col] = values] for a label that is present: every column carrying
    the label receives the values, row by row. *)
Fixpoint set_rows (ps : list nat) (rows : list (list cell))
  (values : list float) : list (list cell) :=
  match rows, values with
  | row :: rows', x :: values' =>
      fold_left (fun r i => set_nth i (CNum x) r) ps row
        :: set_rows ps rows' values'
  | _, _ => rows
  end.

Definition setitem (df : DataFrame) (col : string) (values : list float)
  : DataFrame :=
  {| columns := columns df;
     data := set_rows (positions df col) (data df) values |}.

(** [pd.isna] of a field. *)
Definition isna (c : cell) : bool :=
  match c with
  | CNum x => is_nan x
  | CText _ => false
  end.

(** [df.dropna(subset=subset)]: a row stays when none of its fields under
    a label of [subset] is NaN. *)
Definition row_complete (df : DataFrame) (subset : list string)
  (row : list cell) : bool :=
  forallb (fun col => forallb (fun i => negb (isna (at_ row i)))
                              (positions df col)) subset.

Definition dropna (df : DataFrame) (subset : list string) : DataFrame :=
  {| columns := columns df;
     data := filter (row_complete df subset) (data df) |}.

(** A column read as a float Series, as the indicator code needs it. *)
Fixpoint as_floats (s : list cell) : result (list float) :=
  match s with
  | [] => Ok []
  | CNum x :: rest => xs <- as_floats rest ;; Ok (x :: xs)
  | CText t :: rest => Raise "unsupported operand type(s)"
  end.

Definition float_column (df : DataFrame) (col : string)
  : result (list float) :=
  sel <- getitem df col ;;
  match sel with
  | Series s => as_floats s
  | Frame _ => Raise "Data must be 1-dimensional"
  end.

(** [s.iloc[-1]]. *)
Definition iloc_last (s : list float) : result float :=
  match rev s with
  | [] => Raise "single positional indexer is out-of-bounds"
  | x :: _ => Ok x
  end.

(** [s.tail(n)]. *)
Definition tail (n : nat) (s : list float) : list float :=
  skipn (List.length s - n) s.

(** [s.min()] and [s.max()], which skip NaN and give NaN when nothing is
    left. *)
Definition keep_better (better : float -> float -> bool) (acc x : float)
  : float :=
  if is_nan x then acc
  else if is_nan acc then x
  else if better x acc then x else acc.

Definition series_min (s : list float) : float :=
  fold_left (keep_better Float.ltb) s NaN.
Definition series_max (s : list float) : float :=
  fold_left (keep_better Float.gtb) s NaN.

(** [np.mean]: the sum over the count, NaN for an empty input. *)
Definition mean (xs : list float) : float :=
  (fold_left Float.add xs (Fin 0) / of_Z (Z.of_nat (List.length xs)))%float.

(* ================================================================== *)
(** ** The indicator library [ta] *)

Module ta.

(** [ta.trend.sma_indicator(close, window).iloc[-1]]: the rolling mean with
    [min_periods = window], so NaN until [window] values are available. *)
Definition sma_indicator (close : list float) (window : nat) : float :=
  if (List.length close <? window)%nat then NaN
  else mean (skipn (List.length close - window) close).

(** The other indicators are taken as they come from the library.  Each
    field stands for the library call followed by [.iloc[-1]]; the library
    returns a Series indexed like its input and raises nothing on float
    input. *)
Record library : Type := {
  ema_indicator : list float -> nat -> float;
  rsi : list float -> nat -> float;
  macd : list float -> float;
  macd_signal : list float -> float;
  macd_diff : list float -> float;
  bollinger_hband : list float -> float;
  bollinger_lband : list float -> float;
  bollinger_mavg : list float -> float;
  stoch : list float -> list float -> list float -> float;
  stoch_signal : list float -> list float -> list float -> float
}.

End ta.

(* ================================================================== *)
(** ** The tabular path *)

(** Lines 230-241.  The two rolling series [highs] and [lows] are computed
    and never read. *)
Definition _find_support_resistance (df : DataFrame)
  : result (float * float) :=
  high <- float_column df "high" ;;
  low <- float_column df "low" ;;
  let support := series_min (tail 20 low) in
  let resistance := series_max (tail 20 high) in
  Ok (support, resistance).

(** Lines 80-125. *)
Definition _calculate_indicators (lib : ta.library) (df : DataFrame)
  (timeframe : string) : result dict :=
  close <- float_column df "close" ;;
  high <- float_column df "high" ;;
  low <- float_column df "low" ;;
  open_price <- float_column df "open" ;;
  let sma_20 := ta.sma_indicator close 20 in
  let sma_50 := ta.sma_indicator close 50 in
  let ema_12 := ta.ema_indicator lib close 12 in
  let ema_26 := ta.ema_indicator lib close 26 in
  let rsi := ta.rsi lib close 14 in
  let macd_line := ta.macd lib close in
  let macd_signal := ta.macd_signal lib close in
  let macd_histogram := ta.macd_diff lib close in
  let bb_upper := ta.bollinger_hband lib close in
  let bb_lower := ta.bollinger_lband lib close in
  let bb_middle := ta.bollinger_mavg lib close in
  let stoch_k := ta.stoch lib high low close in
  let stoch_d := ta.stoch_signal lib high low close in
  sr <- _find_support_resistance df ;;
  let '(support, resistance) := sr in
  current_price <- iloc_last close ;;
  Ok (_generate_signal_from_indicators
        {| current_price := current_price;
           sma_20 := sma_20; sma_50 := sma_50;
           ema_12 := ema_12; ema_26 := ema_26;
           rsi := rsi; macd := macd_line; macd_signal := macd_signal;
           bb_upper := bb_upper; bb_lower := bb_lower; bb_middle := bb_middle;
           stoch_k := stoch_k; stoch_d := stoch_d;
           support := support; resistance := resistance |}
        timeframe).

Definition column_mapping : list (string * string) :=
  [ ("timestamp", "time"); ("datetime", "time"); ("date", "time");
    ("o", "open"); ("h", "high"); ("l", "low"); ("c", "close");
    ("v", "volume") ]%string.

Definition required_cols : list string :=
  [ "open"; "high"; "low"; "close" ]%string.

(** Line 23: [df.columns = df.columns.str.lower().str.strip()]. *)
Definition standardize (df : DataFrame) : DataFrame :=
  {| columns := map (fun c => strip (lower c)) (columns df);
     data := data df |}.

(** Lines 31-33. *)
Definition map_columns (df : DataFrame) : DataFrame :=
  fold_left
    (fun df (m : string * string) =>
       let (old_col, new_col) := m in
       if contains (columns df) old_col then rename df old_col new_col
       else df)
    column_mapping df.

(** A [for] loop whose body may raise. *)
Fixpoint for_each {A S : Type} (xs : list A) (body : S -> A -> result S)
  (s : S) : result S :=
  match xs with
  | [] => Ok s
  | x :: rest => s' <- body s x ;; for_each rest body s'
  end.

(** Line 42: [df[col] = pd.to_numeric(df[col], errors='coerce')]. *)
Definition convert_column (df : DataFrame) (col : string)
  : result DataFrame :=
  sel <- getitem df col ;;
  values <- to_numeric sel ;;
  Ok (setitem df col values).

(** Lines 41-42. *)
Definition convert_required (df : DataFrame) : result DataFrame :=
  for_each required_cols convert_column df.

(** Lines 16-56.  [file] is the outcome of [pd.read_csv(file_path)]: the
    table, or the exception it raised. *)
Definition analyze_csv_data (lib : ta.library) (file : result DataFrame)
  (timeframe : string) : dict :=
  match
    (df <- file ;;
     let df := standardize df in
     let df := map_columns df in
     if negb (forallb (contains (columns df)) required_cols) then
       Ok (_generate_error_signal
             "Invalid CSV format. Required columns: Open, High, Low, Close")
     else
       df <- convert_required df ;;
       let df := dropna df required_cols in
       if (len df <? 20)%nat then
         Ok (_generate_error_signal
               "Insufficient data for analysis (minimum 20 candles required)")
       else
         _calculate_indicators lib df timeframe)
  with
  | Ok signals => signals
  | Raise e => _generate_error_signal ("CSV analysis failed: " ++ e)
  end.

(* ================================================================== *)
(** ** The image path *)

(** A segment [x1, y1, x2, y2] as [cv2.HoughLinesP] reports it. *)
Definition line : Type := (Z * Z * Z * Z)%type.

(** The dict [patterns] of [_detect_chart_patterns]; its three keys are
    fixed. *)
Record Patterns : Type := {
  trend_lines : Z;
  bullish_pattern : bool;
  bearish_pattern : bool
}.

Definition Patterns_dict (p : Patterns) : dict :=
  [ ("trend_lines", VInt (trend_lines p));
    ("bullish_pattern", VBool (bullish_pattern p));
    ("bearish_pattern", VBool (bearish_pattern p)) ]%string.

Section ImagePath.

(** Decoded images, and the two numeric routines the detector relies on:
    [hough_lines img] is the outcome of [cvtColor], [Canny] and
    [HoughLinesP] on [img] ([None] when no segment is found), and
    [arctan2_degrees dy dx] is [np.arctan2(dy, dx) * 180 / np.pi]. *)
Variable image : Type.
Variable hough_lines : image -> option (list line).
Variable arctan2_degrees : Z -> Z -> float.

(** Lines 262-266. *)
Definition line_angles (lines : list line) : list float :=
  map (fun l : line =>
         let '(x1, y1, x2, y2) := l in
         arctan2_degrees (y2 - y1) (x2 - x1))
      lines.

(** Lines 243-274. *)
Definition _detect_chart_patterns (img : image) : Patterns :=
  let lines := hough_lines img in
  let patterns :=
    {| trend_lines :=
         match lines with
         | Some ls => Z.of_nat (List.length ls)
         | None => 0%Z
         end;
       bullish_pattern := false;
       bearish_pattern := false |} in
  match lines with
  | Some ls =>
      let angles := line_angles ls in
      let avg_angle := mean angles in
      if (avg_angle >? 10%Q)%float then
        {| trend_lines := trend_lines patterns;
           bullish_pattern := true;
           bearish_pattern := bearish_pattern patterns |}
      else if (avg_angle <? (-10)%Q)%float then
        {| trend_lines := trend_lines patterns;
           bullish_pattern := bullish_pattern patterns;
           bearish_pattern := true |}
      else patterns
  | None => patterns
  end.

(** Lines 279-287. *)
Definition image_action (patterns : Patterns) : Action * Z :=
  if bullish_pattern patterns then (BUY, 75%Z)
  else if bearish_pattern patterns then (SELL, 75%Z)
  else (HOLD, 60%Z).

(** Lines 292-303: [(entry, take_profit, stop_loss)] before rounding. *)
Definition image_levels (action : Action) (base_price : float)
  : float * float * float :=
  match action with
  | BUY =>
      let entry := base_price in
      (entry, (entry * 1.025%Q)%float, (entry * 0.985%Q)%float)
  | SELL =>
      let entry := base_price in
      (entry, (entry * 0.975%Q)%float, (entry * 1.015%Q)%float)
  | HOLD =>
      let entry := base_price in
      (entry, entry, entry)
  end.

(** Lines 276-314.  [base_price] is the draw
    [np.random.uniform(1800, 2100)]. *)
Definition _generate_image_based_signal (patterns : Patterns)
  (timeframe : string) (base_price : float) : dict :=
  let '(action, confidence) := image_action patterns in
  let '(entry, take_profit, stop_loss) := image_levels action base_price in
  [ ("action", VStr (Action_str action));
    ("entry", VFloat (round entry 2));
    ("take_profit", VFloat (round take_profit 2));
    ("stop_loss", VFloat (round stop_loss 2));
    ("confidence", VStr (percent confidence));
    ("timeframe", VStr timeframe);
    ("patterns", VDict (Patterns_dict patterns));
    ("analysis_type", VStr "chart_pattern") ]%string.

(** Lines 58-78.  [imread] is the outcome of [cv2.imread(file_path)]. *)
Definition analyze_chart_image (imread : option image)
  (timeframe : string) (base_price : float) : dict :=
  match imread with
  | None => _generate_error_signal "Could not load image file"
  | Some img =>
      let pattern_signals := _detect_chart_patterns img in
      _generate_image_based_signal pattern_signals timeframe base_price
  end.

End ImagePath.

(* ================================================================== *)
(** ** Reading a returned signal *)

(** A price field of a signal: a float, or the integer [0] of an error
    signal. *)
Definition price (d : dict) (k : string) : float :=
  match get d k with
  | Some (VFloat x) => x
  | Some (VInt n) => of_Z n
  | _ => NaN
  end.

(* ================================================================== *)
(** ** Inputs used by the examples *)

(** An input on which no indicator is warmed up: only the proximity rule
    can vote. *)
Definition quiet (price support resistance : float) : Inputs :=
  {| current_price := price;
     sma_20 := NaN; sma_50 := NaN; ema_12 := NaN; ema_26 := NaN;
     rsi := NaN; macd := NaN; macd_signal := NaN;
     bb_upper := NaN; bb_lower := NaN; bb_middle := NaN;
     stoch_k := NaN; stoch_d := NaN;
     support := support; resistance := resistance |}.

(** Rising averages, the price inside the bands and away from both levels,
    MACD positive but under its signal line. *)
Definition uptrend (rsi : float) : Inputs :=
  {| current_price := 100%Q;
     sma_20 := 101%Q; sma_50 := 100%Q; ema_12 := 101%Q; ema_26 := 100%Q;
     rsi := rsi; macd := 1%Q; macd_signal := 2%Q;
     bb_upper := 110%Q; bb_lower := 90%Q; bb_middle := 100%Q;
     stoch_k := 50%Q; stoch_d := 50%Q;
     support := 95%Q; resistance := 105%Q |}.


(* ================================================================== *)
(** ** What the two entry points return *)

(** [d] is the result of a call of [analyze_csv_data] or of
    [analyze_chart_image]. *)
Inductive returned (d : dict) : Prop :=
| returned_csv (lib : ta.library) (file : result DataFrame)
    (timeframe : string) :
    d = analyze_csv_data lib file timeframe -> returned d
| returned_image (image : Type) (hough_lines : image -> option (list line))
    (arctan2_degrees : Z -> Z -> float) (imread : option image)
    (timeframe : string) (base_price : float) :
    d = analyze_chart_image image hough_lines arctan2_degrees imread
          timeframe base_price ->
    returned d.

(** An ErrorSignal is a result whose [analysis_type] is ["error"]. *)
Definition is_error_signal (d : dict) : Prop :=
  get d "analysis_type" = Some (VStr "error").


(* ================================================================== *)
(** ** The validation steps of [analyze_csv_data], named *)

(** The table after lines 23-33. *)
Definition normalize (df : DataFrame) : DataFrame :=
  map_columns (standardize df).

(** Line 37: every required label is a column. *)
Definition has_required (df : DataFrame) : bool :=
  forallb (contains (columns df)) required_cols.

(** Every required label names exactly one column. *)
Definition unique_required (df : DataFrame) : bool :=
  forallb (fun col => (List.length (positions df col) =? 1)%nat)
          required_cols.

(** A valid row: every field under a required label is a number other
    than NaN once coerced. *)
Definition row_valid (df : DataFrame) (row : list cell) : bool :=
  forallb (fun col => forallb (fun i => negb (is_nan (coerce (at_ row i))))
                              (positions df col)) required_cols.

Definition valid_rows (df : DataFrame) : list (list cell) :=
  filter (row_valid df) (data df).

(** Coercing the field at position [i] of a row, which is what one pass
    of the loop at lines 41-42 does to it. *)
Definition coerce_at (i : nat) (row : list cell) : list cell :=
  set_nth i (CNum (coerce (at_ row i))) row.

Definition coerced (ps : list nat) (row : list cell) : list cell :=
  fold_left (fun r i => coerce_at i r) ps row.

Definition required_positions (df : DataFrame) : list nat :=
  flat_map (positions df) required_cols.

(** The frame after lines 41-45 when the conversion loop completes: the
    required columns coerced, the incomplete rows dropped. *)
Definition cleaned (df : DataFrame) : DataFrame :=
  dropna {| columns := columns df;
            data := map (coerced (required_positions df)) (data df) |}
         required_cols.

(** Each required label names one column, at the given position. *)
Record single_columns (df : DataFrame) (io ih il ic : nat) : Prop := {
  at_open : positions df "open" = [io];
  at_high : positions df "high" = [ih];
  at_low : positions df "low" = [il];
  at_close : positions df "close" = [ic]
}.

(* ================================================================== *)
(** ** Tables used by the examples *)

(** A stand-in for [ta] on which no indicator is warmed up. *)
Definition ta_stub : ta.library :=
  {| ta.ema_indicator := fun _ _ => NaN;
     ta.rsi := fun _ _ => NaN;
     ta.macd := fun _ => NaN;
     ta.macd_signal := fun _ => NaN;
     ta.macd_diff := fun _ => NaN;
     ta.bollinger_hband := fun _ => NaN;
     ta.bollinger_lband := fun _ => NaN;
     ta.bollinger_mavg := fun _ => NaN;
     ta.stoch := fun _ _ _ => NaN;
     ta.stoch_signal := fun _ _ _ => NaN |}.

(** Rows [first, p, p + 1, p - 1, p] for [p = 100, 101, ...]: a first
    field, then open, high, low, close. *)
Definition rising_rows (first : cell) (n : nat) : list (list cell) :=
  map (fun k =>
         let p := (inject_Z (Z.of_nat k) + 100)%Q in
         [ first; CNum (Fin p); CNum (Fin (p + 1)); CNum (Fin (p - 1));
           CNum (Fin p) ])
      (seq 0 n).

(** A well-formed file with a date column. *)
Definition dated_table (n : nat) : DataFrame :=
  {| columns := [ "Date"; "Open"; "High"; "Low"; "Close" ]%string;
     data := rising_rows (CText "2024-01-02") n |}.



(** A file without a [low] column. *)
Definition no_low_table (n : nat) : DataFrame :=
  {| columns := [ "Date"; "Open"; "High"; "Lo"; "Close" ]%string;
     data := rising_rows (CText "2024-01-02") n |}.


(** The low, high and close series of [rising_rows]. *)
Definition rising_series (shift : Q) (n : nat) : list float :=
  map (fun k => Fin (inject_Z (Z.of_nat k) + 100 + shift)%Q) (seq 0 n).


(** A file in which every candle closes at its high, so that the last close
    is the 20-period high. *)
Definition closing_high_table (n : nat) : DataFrame :=
  {| columns := [ "open"; "high"; "low"; "close" ]%string;
     data := map (fun k =>
                    let p := (inject_Z (Z.of_nat k) + 100)%Q in
                    [ CNum (Fin (p - 1)); CNum (Fin p); CNum (Fin (p - 2));
                      CNum (Fin p) ])
                 (seq 0 n) |}.


(* ================================================================== *)
(** ** Named parts of the loops, and readers of nested fields *)

(** The state of the two lists after at most [n] blocks. *)
Definition tallied (n : Z) (t : tally) : Prop :=
  (0 <= count BUY (fst t))%Z /\ (0 <= count SELL (fst t))%Z /\
  (count BUY (fst t) + count SELL (fst t) <= n)%Z /\
  count HOLD (fst t) = 0%Z /\
  (count BUY (fst t) + count SELL (fst t))%Z = Z.of_nat (List.length (fst t)) /\
  List.length (fst t) = List.length (snd t).

(** One pass of the renaming loop, lines 32-33. *)
Definition map_column (df : DataFrame) (m : string * string) : DataFrame :=
  let (old_col, new_col) := m in
  if contains (columns df) old_col then rename df old_col new_col else df.

(** No new label of the mapping is an old label of it. *)
Definition targets_apart (l : list (string * string)) : bool :=
  forallb (fun m => forallb (fun m' => negb (String.eqb (fst m) (snd m'))) l)
          l.



(* ================================================================== *)
(** * The service around the analyzer

    The route handlers of [main.py] and [main_simple.py], the statistics of
    [firebase_service.py], [utils/risk.py] and the path computed by
    [analysis/annotate.py].  A handler returns a body, raises an
    [HTTPException] or lets another exception escape ([response]).  The
    Python operators on plain floats raise where numpy returns an infinity:
    [truediv].  What the handlers get from outside is an argument: the
    uploaded file and what the libraries make of it ([Upload]), the
    documents of a Firestore query, the random draws and the clock. *)

(** ** Python values in the route handlers and in the Firebase service *)

(** Whether a float is zero. *)
Definition is_zero (x : float) : bool :=
  match x with
  | Fin q => Qeq_bool q 0
  | _ => false
  end.

(** Python's [x / y] on floats: a zero divisor raises ZeroDivisionError. *)
Definition truediv (x y : float) : result float :=
  if is_zero y then Raise "float division by zero" else Ok (x / y)%float.


(** The truth value of [d.get(k)]: false for a missing key, for [False],
    zero, the empty string and the empty dict. *)
Definition truthy (v : option value) : bool :=
  match v with
  | None => false
  | Some (VBool b) => b
  | Some (VInt n) => negb (n =? 0)%Z
  | Some (VFloat x) => negb (is_zero x)
  | Some (VStr s) => negb (String.eqb s "")
  | Some (VDict d) => match d with [] => false | _ :: _ => true end
  end.

(** [d[k]], a KeyError for a missing key. *)
Definition item (d : dict) (k : string) : result value :=
  match get d k with
  | Some v => Ok v
  | None => Raise ("'" ++ k ++ "'")
  end.

(** [type(v).__name__]. *)
Definition type_name (v : value) : string :=
  match v with
  | VBool _ => "bool"
  | VInt _ => "int"
  | VFloat _ => "float"
  | VStr _ => "str"
  | VDict _ => "dict"
  end.

(** [v.get(k, default)]: only a dict has the method. *)
Definition get_or (v : value) (k : string) (default : value) : result value :=
  match v with
  | VDict d => Ok (match get d k with Some x => x | None => default end)
  | _ => Raise ("'" ++ type_name v ++ "' object has no attribute 'get'")
  end.

(** [v == s] for a string literal [s]. *)
Definition is_str (v : value) (s : string) : bool :=
  match v with
  | VStr t => String.eqb t s
  | _ => false
  end.

Fixpoint has_dot (s : string) : bool :=
  match s with
  | EmptyString => false
  | String c r => Ascii.eqb c "." || has_dot r
  end.

(** [s.split(".")[-1]]: what follows the last dot, the whole string when it
    has none. *)
Fixpoint last_component (s : string) : string :=
  match s with
  | EmptyString => EmptyString
  | String c r =>
      if has_dot r then last_component r
      else if Ascii.eqb c "." then r
      else s
  end.

(** [sep.join(l)]. *)
Fixpoint join (sep : string) (l : list string) : string :=
  match l with
  | [] => ""
  | [s] => s
  | s :: rest => s ++ sep ++ join sep rest
  end.

(** An uploaded file: its name, the outcome of writing it under [uploads/],
    and what [pd.read_csv] and [cv2.imread] make of the written file. *)
Record Upload (image : Type) : Type := {
  filename : option string;
  saved : result unit;
  csv : result DataFrame;
  picture : option image
}.
Arguments filename {image} _.
Arguments saved {image} _.
Arguments csv {image} _.
Arguments picture {image} _.

(** [d[k] = v]: the value of an existing key is replaced in place, a new key
    goes to the end. *)
Fixpoint set_item (d : dict) (k : string) (v : value) : dict :=
  match d with
  | [] => [(k, v)]
  | (k', v') :: rest =>
      if String.eqb k k' then (k', v) :: rest
      else (k', v') :: set_item rest k v
  end.

(** [s.replace(c, "")] for a one-character [c]. *)
Fixpoint remove_char (c : ascii) (s : string) : string :=
  match s with
  | EmptyString => EmptyString
  | String a r =>
      if Ascii.eqb a c then remove_char c r else String a (remove_char c r)
  end.


(** What a route handler does: it returns a body, raises an
    [HTTPException], or lets another exception escape. *)
Inductive response (A : Type) : Type :=
| Returns (body : A)
| HTTPException (status_code : Z) (detail : value)
| Escapes (e : string).
Arguments Returns {A} body.
Arguments HTTPException {A} status_code detail.
Arguments Escapes {A} e.

(** The handler goes on with the value of a computation that may raise. *)
Definition try_ {A B : Type} (m : result A) (k : A -> response B)
  : response B :=
  match m with
  | Ok a => k a
  | Raise e => Escapes e
  end.

(* ================================================================== *)
(** ** The route handlers and helpers: [main.py], [main_simple.py],
       [utils/risk.py], [analysis/annotate.py] *)

Module main.

(** [main.py], lines 77 and 81. *)
Definition valid_timeframes : list string :=
  [ "1m"; "5m"; "15m"; "30m"; "1h"; "4h"; "1d" ]%string.

Definition allowed_extensions : list string :=
  [ "jpg"; "jpeg"; "png"; "csv" ]%string.

Section Analyze.

(** The analyzer's libraries, Python's [str] of a value, and the outcome of
    [firebase_service.save_signal], which catches its own exceptions. *)
Variable lib : ta.library.
Variable image : Type.
Variable hough_lines : image -> option (list line).
Variable arctan2_degrees : Z -> Z -> float.
Variable str : value -> string.
Variable save_signal : string -> dict -> string -> bool.

(** Lines 103-112. *)
Definition caption_of (analysis_result : dict) (action confidence : value)
  (timeframe : string) : result string :=
  let analysis_type :=
    match get analysis_result "analysis_type" with
    | Some v => v
    | None => VStr "technical"
    end in
  if is_str analysis_type "technical_indicators" then
    let indicators :=
      match get analysis_result "indicators" with
      | Some v => v
      | None => VDict []
      end in
    rsi <- get_or indicators "rsi" (VStr "N/A") ;;
    macd <- get_or indicators "macd" (VStr "N/A") ;;
    Ok ("Technical Analysis: " ++ str action ++ " signal with "
        ++ str confidence ++ " confidence on " ++ timeframe ++ ". RSI: "
        ++ str rsi ++ ", MACD: " ++ str macd)%string
  else
    Ok ("Chart Pattern Analysis: " ++ str action ++ " signal detected with "
        ++ str confidence ++ " confidence on " ++ timeframe
        ++ " timeframe.")%string.

(** Lines 99-136: the answer for an analysis result. *)
Definition respond (analysis_result : dict) (name timeframe user_id : string)
  : response dict :=
  if truthy (get analysis_result "error") then
    try_ (item analysis_result "message") (fun message =>
    HTTPException 400 message)
  else
    try_ (item analysis_result "action") (fun action =>
    try_ (item analysis_result "confidence") (fun confidence =>
    try_ (caption_of analysis_result action confidence timeframe)
      (fun caption =>
    let annotated_chart :=
      ("https://via.placeholder.com/800x600/"
       ++ (if is_str action "BUY" then "4CAF50" else "F44336")
       ++ "/white?text=" ++ str action ++ "+Signal+"
       ++ str confidence)%string in
    let signal_saved :=
      save_signal
        (if String.eqb user_id "" then "anonymous" else user_id)
        analysis_result name in
    Returns
      [ ("signal", VDict analysis_result);
        ("annotated_chart", VStr annotated_chart);
        ("caption", VStr caption);
        ("file_processed", VStr name);
        ("saved_to_history", VBool signal_saved) ]%string))).

(** Lines 93-97: the analysis by extension. *)
Definition analysis (file : Upload image) (ext timeframe : string)
  (base_price : float) : dict :=
  if String.eqb ext "csv" then
    analyze_csv_data lib (csv file) timeframe
  else
    analyze_chart_image image hough_lines arctan2_degrees
      (picture file) timeframe base_price.

(** Lines 72-136, the body of the [try]. *)
Definition analyze_body (file : Upload image) (timeframe user_id : string)
  (base_price : float) : response dict :=
  match filename file with
  | None => HTTPException 400 (VStr "No file provided")
  | Some name =>
      if String.eqb name "" then HTTPException 400 (VStr "No file provided")
      else
        let ext := lower (last_component name) in
        if negb (contains allowed_extensions ext) then
          HTTPException 400
            (VStr "Unsupported file type. Use JPG, PNG, or CSV.")
        else if negb (contains valid_timeframes timeframe) then
          HTTPException 400
            (VStr ("Invalid timeframe. Use: " ++ join ", " valid_timeframes))
        else
          try_ (saved file) (fun _ =>
          let analysis_result := analysis file ext timeframe base_price in
          respond analysis_result name timeframe user_id)
  end.

(** Lines 64-141: an [HTTPException] passes, any other exception becomes a
    500. *)
Definition analyze (file : Upload image) (timeframe user_id : string)
  (base_price : float) : response dict :=
  match analyze_body file timeframe user_id base_price with
  | Escapes e => HTTPException 500 (VStr ("Analysis failed: " ++ e))
  | r => r
  end.

End Analyze.

(** [main.py], lines 204-241. *)
Definition risk_calculator (account_size stop_loss risk_pct : float)
  : response dict :=
  if leb account_size 0%Q || leb risk_pct 0%Q || gtb risk_pct 100%Q then
    HTTPException 400 (VStr "Invalid input values")
  else
    try_ (truediv risk_pct 100%Q) (fun fraction =>
    let risk_amount := (account_size * fraction)%float in
    try_ (truediv risk_amount (abs stop_loss)) (fun position_size =>
    let max_drawdown := risk_amount in
    let reward_risk_ratio : float := 2%Q in
    let potential_profit := (risk_amount * reward_risk_ratio)%float in
    let conservative_size := (position_size * 0.5%Q)%float in
    let aggressive_size := (position_size * 1.5%Q)%float in
    Returns
      [ ("account_size", VFloat account_size);
        ("risk_percentage", VFloat risk_pct);
        ("risk_amount", VFloat (round risk_amount 2));
        ("stop_loss", VFloat stop_loss);
        ("position_size", VFloat (round position_size 4));
        ("max_loss", VFloat (round max_drawdown 2));
        ("potential_profit", VFloat (round potential_profit 2));
        ("reward_risk_ratio", VFloat reward_risk_ratio);
        ("recommendations",
          VDict [ ("conservative", VFloat (round conservative_size 4));
                  ("normal", VFloat (round position_size 4));
                  ("aggressive", VFloat (round aggressive_size 4)) ]) ]%string)).

End main.

Module main_simple.

(** [main_simple.py], lines 122-138. *)
Definition risk (account_size stop_loss risk_pct : float) : response dict :=
  if leb account_size 0%Q || leb risk_pct 0%Q || gtb risk_pct 100%Q then
    HTTPException 400 (VStr "Invalid input values")
  else
    try_ (truediv risk_pct 100%Q) (fun fraction =>
    let risk_amount := (account_size * fraction)%float in
    try_ (truediv risk_amount (abs stop_loss)) (fun position_size =>
    Returns
      [ ("account_size", VFloat account_size);
        ("risk_percentage", VFloat risk_pct);
        ("risk_amount", VFloat (round risk_amount 2));
        ("stop_loss", VFloat stop_loss);
        ("position_size", VFloat (round position_size 4));
        ("max_loss", VFloat (round risk_amount 2)) ]%string)).

Section Analyze.

(** The random draws of one call, the clock, and [str] of an
    [HTTPException].  A call draws at most once from each range, so a
    uniform draw is given by its range. *)
Variable choice : list string -> string.
Variable uniform : float -> float -> float.
Variable randint : Z -> Z -> Z.
Variable now : float.
Variable str_exception : Z -> value -> string.
Variable image : Type.

(** [main_simple.py], lines 36-74, the body of the [try]. *)
Definition analyze_body (file : Upload image) (timeframe user_id : string)
  : response dict :=
  match filename file with
  | None => HTTPException 400 (VStr "No file provided")
  | Some name =>
      if String.eqb name "" then HTTPException 400 (VStr "No file provided")
      else
        let ext := lower (last_component name) in
        if negb (contains [ "jpg"; "jpeg"; "png"; "csv" ]%string ext) then
          HTTPException 400
            (VStr "Unsupported file type. Use JPG, PNG, or CSV.")
        else
          try_ (saved file) (fun _ =>
          let actions := [ "BUY"; "SELL" ]%string in
          let action := choice actions in
          let entry := round (uniform 1800%Q 2100%Q) 2 in
          let take_profit :=
            if String.eqb action "BUY" then round (uniform 2100%Q 2300%Q) 2
            else round (uniform 1600%Q 1800%Q) 2 in
          let stop_loss :=
            if String.eqb action "BUY" then round (uniform 1600%Q 1800%Q) 2
            else round (uniform 2100%Q 2300%Q) 2 in
          let confidence := percent (randint 70 95) in
          let signal :=
            [ ("action", VStr action);
              ("entry", VFloat entry);
              ("take_profit", VFloat take_profit);
              ("stop_loss", VFloat stop_loss);
              ("confidence", VStr confidence);
              ("timeframe", VStr timeframe);
              ("timestamp", VFloat now) ]%string in
          let caption :=
            ("AI Analysis: " ++ action ++ " signal detected with "
             ++ confidence ++ " confidence on " ++ timeframe
             ++ " timeframe.")%string in
          let annotated_chart :=
            ("https://via.placeholder.com/800x600/4CAF50/white?text="
             ++ action ++ "+Signal")%string in
          Returns
            [ ("signal", VDict signal);
              ("annotated_chart", VStr annotated_chart);
              ("caption", VStr caption);
              ("file_processed", VStr name) ]%string)
  end.

(** [main_simple.py], lines 34-77: [except Exception] also catches the
    [HTTPException]s raised in the body. *)
Definition analyze (file : Upload image) (timeframe user_id : string)
  : response dict :=
  match analyze_body file timeframe user_id with
  | Returns body => Returns body
  | HTTPException status_code detail =>
      HTTPException 500
        (VStr ("Analysis failed: " ++ str_exception status_code detail))
  | Escapes e => HTTPException 500 (VStr ("Analysis failed: " ++ e))
  end.

End Analyze.

End main_simple.

Module risk.

(** [utils/risk.py]. *)
Definition calculate_position_size (account_size stop_loss risk_pct : float)
  : result float :=
  fraction <- truediv risk_pct 100%Q ;;
  let risk_amount := (account_size * fraction)%float in
  position_size <- truediv risk_amount (abs stop_loss) ;;
  Ok (round position_size 2).

End risk.

Module annotate.

(** Whether [old] occurs in [s]. *)
Fixpoint occurs (old s : string) : bool :=
  String.prefix old s
  || match s with
     | EmptyString => false
     | String _ r => occurs old r
     end.

(** [s.replace(old, new)] for a non-empty [old]: the occurrences are
    replaced from the left, without overlap; [skip] counts the characters of
    a replaced occurrence still to pass over. *)
Fixpoint replace_from (skip : nat) (old new s : string) : string :=
  match s with
  | EmptyString => EmptyString
  | String c r =>
      match skip with
      | S k => replace_from k old new r
      | O =>
          if String.prefix old s then
            new ++ replace_from (String.length old - 1) old new r
          else String c (replace_from 0 old new r)
      end
  end.

Definition replace (old new s : string) : string := replace_from 0 old new s.

(** [analysis/annotate.py], line 13. *)
Definition annotated_path (image_path : string) : string :=
  replace ".jpg" "_annotated.jpg"
    (replace ".png" "_annotated.png" image_path).

(** [analysis/annotate.py], lines 4-15.  [drawn] is the outcome of opening
    the image, drawing on it and saving it under the annotated path. *)
Definition annotate_chart (drawn : result unit) (image_path : string)
  : result string :=
  _ <- drawn ;;
  Ok (annotated_path image_path).

End annotate.

(** A field of the nested dict [recommendations]. *)
Definition recommendation (d : dict) (k : string) : float :=
  match get d "recommendations" with
  | Some (VDict r) => price r k
  | _ => NaN
  end.


(* ================================================================== *)
(** ** The Firebase service: [firebase_service.py] *)

Module firebase_service.

(** Lines 218-228. *)
Definition _mock_user_stats : dict :=
  [ ("total_signals", VInt 25);
    ("wins", VInt 17);
    ("losses", VInt 8);
    ("win_rate", VFloat 68.0%Q);
    ("total_pnl", VFloat 245.75%Q);
    ("avg_confidence", VFloat 78.5%Q);
    ("best_timeframe", VStr "1h") ]%string.

(** Lines 187-216. *)
Definition _mock_get_signals : list dict :=
  [ [ ("id", VStr "mock_signal_1");
      ("signal",
        VDict [ ("action", VStr "BUY");
                ("entry", VFloat 1950.50%Q);
                ("take_profit", VFloat 1980.00%Q);
                ("stop_loss", VFloat 1920.00%Q);
                ("confidence", VStr "85%");
                ("timeframe", VStr "1h") ]);
      ("created_at", VStr "2024-01-15T10:30:00Z");
      ("file_name", VStr "XAUUSD_chart.png") ];
    [ ("id", VStr "mock_signal_2");
      ("signal",
        VDict [ ("action", VStr "SELL");
                ("entry", VFloat 1975.25%Q);
                ("take_profit", VFloat 1945.00%Q);
                ("stop_loss", VFloat 2005.00%Q);
                ("confidence", VStr "78%");
                ("timeframe", VStr "4h") ]);
      ("created_at", VStr "2024-01-16T14:15:00Z");
      ("file_name", VStr "EURUSD_data.csv") ] ]%string.

(** Lines 96-115.  [stream] is the outcome of running the Firestore query:
    the documents found, each with its id and its [to_dict()], or the
    exception raised. *)
Definition get_user_signals (initialized : bool)
  (stream : result (list (string * dict))) : list dict :=
  if negb initialized then _mock_get_signals
  else
    match stream with
    | Ok docs =>
        map (fun doc : string * dict =>
               let (id, signal_data) := doc in
               set_item signal_data "id" (VStr id))
            docs
    | Raise _ => []
    end.

Section Stats.

(** Python's [float(s)], a ValueError when [s] is no number. *)
Variable float_of_str : string -> result float.

(** [s.get('signal', {}).get(k)]: [None] when a key is missing. *)
Definition signal_field (s : dict) (k : string) : result (option value) :=
  match get s "signal" with
  | None => Ok None
  | Some (VDict signal) => Ok (get signal k)
  | Some v => Raise ("'" ++ type_name v ++ "' object has no attribute 'get'")
  end.

(** Lines 159-160: [sum(1 for s in signals if ... == outcome)]. *)
Fixpoint count_outcome (outcome : string) (signals : list dict) : result Z :=
  match signals with
  | [] => Ok 0%Z
  | s :: rest =>
      o <- signal_field s "outcome" ;;
      n <- count_outcome outcome rest ;;
      Ok ((match o with
           | Some v => if is_str v outcome then 1 else 0
           | None => 0
           end) + n)%Z
  end.

(** Lines 165-166: the terms of the sum, one for each signal with a truthy
    [pnl]. *)
Fixpoint pnl_terms (signals : list dict) : result (list float) :=
  match signals with
  | [] => Ok []
  | s :: rest =>
      p <- signal_field s "pnl" ;;
      if truthy p then
        match p with
        | Some (VStr text) =>
            x <- float_of_str (remove_char "%" (remove_char "+" text)) ;;
            xs <- pnl_terms rest ;;
            Ok (x :: xs)
        | Some v =>
            Raise ("'" ++ type_name v ++ "' object has no attribute 'replace'")
        | None => Raise "'NoneType' object has no attribute 'replace'"
        end
      else pnl_terms rest
  end.

(** Lines 149-180.  [stream] is read only when the service is
    initialized. *)
Definition get_user_stats (initialized : bool)
  (stream : result (list (string * dict))) : dict :=
  if negb initialized then _mock_user_stats
  else
    match
      (let signals := get_user_signals initialized stream in
       let total_signals := Z.of_nat (List.length signals) in
       wins <- count_outcome "WIN" signals ;;
       losses <- count_outcome "LOSS" signals ;;
       let win_rate :=
         if (total_signals >? 0)%Z then
           VFloat (round (of_Z wins / of_Z total_signals * 100%Q)%float 1)
         else VInt 0 in
       terms <- pnl_terms signals ;;
       let total_pnl :=
         match terms with
         | [] => VInt 0
         | _ :: _ => VFloat (round (fold_left Float.add terms (of_Z 0)) 2)
         end in
       Ok [ ("total_signals", VInt total_signals);
            ("wins", VInt wins);
            ("losses", VInt losses);
            ("win_rate", win_rate);
            ("total_pnl", total_pnl);
            ("avg_confidence", VFloat 78.5%Q);
            ("best_timeframe", VStr "1h") ]%string)
    with
    | Ok stats => stats
    | Raise _ => _mock_user_stats
    end.

End Stats.

End firebase_service.

(** An integer field of a dict. *)
Definition int_field (d : dict) (k : string) : Z :=
  match get d k with
  | Some (VInt n) => n
  | _ => 0
  end.

(* ================================================================== *)
(** ** Uploads and documents used by the examples *)

(** [str] on the strings of a signal; the examples do not read the
    caption. *)
Definition str_of_text (v : value) : string :=
  match v with
  | VStr s => s
  | _ => ""%string
  end.

(** A well-formed table uploaded under an upper-case extension. *)
Definition dated_upload : Upload unit :=
  {| filename := Some "gold.CSV"%string;
     saved := Ok tt;
     csv := Ok (dated_table 25);
     picture := None |}.

(** An uploaded table without a [low] column. *)
Definition no_low_upload : Upload unit :=
  {| filename := Some "gold.csv"%string;
     saved := Ok tt;
     csv := Ok (no_low_table 25);
     picture := None |}.

(** A well-formed table that cannot be written under [uploads/]. *)
Definition full_disk_upload : Upload unit :=
  {| filename := Some "gold.csv"%string;
     saved := Raise "[Errno 28] No space left on device"%string;
     csv := Ok (dated_table 25);
     picture := None |}.

(** An upload with an extension that neither handler accepts. *)
Definition notes_upload : Upload unit :=
  {| filename := Some "notes.txt"%string;
     saved := Ok tt;
     csv := Raise "No columns to parse from file"%string;
     picture := None |}.

(** The handler on these uploads, for user [u1] and timeframe [1h]. *)
Definition analyze_upload (file : Upload unit) : response dict :=
  main.analyze ta_stub unit (fun _ => None) (fun _ _ => NaN) str_of_text
    (fun _ _ _ => true) file "1h"%string "u1"%string 1900%Q.

(** The body returned for [dated_upload]. *)
Definition dated_body : dict :=
  Eval vm_compute in
    match analyze_upload dated_upload with
    | Returns body => body
    | _ => []
    end.

(** [float] on texts that are no numbers: the ValueError. *)
Definition float_rejects (s : string) : result float :=
  Raise ("could not convert string to float: '" ++ s ++ "'")%string.

(** A closed trade whose [pnl] is the text [n/a]. *)
Definition unpriced_document : dict :=
  [ ("user_id", VStr "u1");
    ("signal", VDict [ ("action", VStr "BUY");
                       ("outcome", VStr "WIN");
                       ("pnl", VStr "n/a") ]) ]%string.

(** The mock handler with draws at the lower end of each range and the
    first of the actions offered. *)
Definition simple_upload (file : Upload unit) (timeframe : string)
  : response dict :=
  main_simple.analyze (hd ""%string) (fun lo _ => lo) (fun a _ => a) 0%Q
    (fun _ detail => str_of_text detail) unit file timeframe "u1"%string.

(** The body it returns for [dated_upload] and a two-hour timeframe. *)
Definition simple_body : dict :=
  Eval vm_compute in
    match simple_upload dated_upload "2h"%string with
    | Returns body => body
    | _ => []
    end.

(** Three closed trades without a [pnl]: two won, one lost. *)
Definition three_trades : list (string * dict) :=
  map (fun doc : string * string =>
         (fst doc, [ ("signal", VDict [ ("outcome", VStr (snd doc)) ]) ]%string))
      [ ("a", "WIN"); ("b", "LOSS"); ("c", "WIN") ]%string.

(* ================================================================== *)
(** * Properties *)

(** ** Facts about dicts and the percent rendering *)

Lemma length_append (s t : string) :
  String.length (s ++ t) = (String.length s + String.length t)%nat.
Proof. induction s as [|c s IH]; simpl; [reflexivity | now rewrite IH]. Qed.

Lemma append_inj_l (s1 s2 t : string) :
  (s1 ++ t)%string = (s2 ++ t)%string -> s1 = s2.
Proof.
  revert s2. induction s1 as [|c s1 IH]; intros [|c2 s2] H; simpl in H.
  - reflexivity.
  - exfalso. apply (f_equal String.length) in H. simpl in H.
    rewrite length_append in H. lia.
  - exfalso. apply (f_equal String.length) in H. simpl in H.
    rewrite length_append in H. lia.
  - injection H as -> H. f_equal. now apply IH.
Qed.

Lemma to_int_proper (n : Z) :
  Z.to_int n <> Decimal.Pos Decimal.Nil /\
  Z.to_int n <> Decimal.Neg Decimal.Nil.
Proof.
  destruct n as [|p|p]; simpl; split; try discriminate;
    intros [= H]; now apply (DecimalPos.Unsigned.to_uint_nonnil p).
Qed.

(** The rendering [f"{n}%"] determines [n]. *)
Lemma percent_inj (a b : Z) : percent a = percent b -> a = b.
Proof.
  unfold percent. intros H. apply append_inj_l in H.
  apply DecimalZ.to_int_inj.
  destruct (to_int_proper a) as [Ha1 Ha2].
  destruct (to_int_proper b) as [Hb1 Hb2].
  pose proof (NilZero.isi _ Ha1 Ha2) as Ea.
  pose proof (NilZero.isi _ Hb1 Hb2) as Eb.
  rewrite H in Ea. rewrite Ea in Eb. now injection Eb.
Qed.

(** ** The scoring engine *)

Section SignalFields.

Variables (i : Inputs) (timeframe : string).

Let action : Action := fst (final_signal (buy_signals i) (sell_signals i)).
Let confidence : Z := snd (final_signal (buy_signals i) (sell_signals i)).
Let targets : float * float :=
  price_targets action (current_price i) (support i) (resistance i).

(** The returned dict, field by field. *)
Lemma signal_unfold :
  _generate_signal_from_indicators i timeframe =
  [ ("action", VStr (Action_str action));
    ("entry", VFloat (round (current_price i) 2));
    ("take_profit", VFloat (round (fst targets) 2));
    ("stop_loss", VFloat (round (snd targets) 2));
    ("confidence", VStr (percent confidence));
    ("timeframe", VStr timeframe);
    ("indicators",
      VDict [ ("rsi", VFloat (round (rsi i) 2));
              ("macd", VFloat (round (macd i) 4));
              ("sma_20", VFloat (round (sma_20 i) 2));
              ("sma_50", VFloat (round (sma_50 i) 2));
              ("support", VFloat (round (support i) 2));
              ("resistance", VFloat (round (resistance i) 2)) ]);
    ("analysis_type", VStr "technical_indicators") ]%string.
Proof.
  unfold _generate_signal_from_indicators, targets, action, confidence.
  destruct (final_signal (buy_signals i) (sell_signals i)) as [a c].
  simpl fst. simpl snd.
  destruct (price_targets a (current_price i) (support i) (resistance i)).
  reflexivity.
Qed.

Lemma signal_action :
  get (_generate_signal_from_indicators i timeframe) "action"
  = Some (VStr (Action_str action)).
Proof. rewrite signal_unfold. reflexivity. Qed.

Lemma signal_confidence :
  get (_generate_signal_from_indicators i timeframe) "confidence"
  = Some (VStr (percent confidence)).
Proof. rewrite signal_unfold. reflexivity. Qed.





End SignalFields.

Lemma Action_str_inj (a b : Action) : Action_str a = Action_str b -> a = b.
Proof. destruct a, b; simpl; intros H; try reflexivity; discriminate. Qed.

(** The action read back from a returned signal. *)
Lemma signal_action_inv (i : Inputs) (timeframe : string) (a : Action) :
  get (_generate_signal_from_indicators i timeframe) "action"
  = Some (VStr (Action_str a)) ->
  fst (final_signal (buy_signals i) (sell_signals i)) = a.
Proof.
  rewrite signal_action. intros [= H]. now apply Action_str_inj.
Qed.

Lemma final_signal_cases (b s : Z) :
  final_signal b s =
  if (s <? b)%Z then (BUY, Z.min 95 (60 + 8 * b))
  else if (b <? s)%Z then (SELL, Z.min 95 (60 + 8 * s))
  else (HOLD, 50%Z).
Proof.
  unfold final_signal. rewrite !Z.gtb_ltb.
  destruct (s <? b)%Z; [do 2 f_equal; lia|].
  destruct (b <? s)%Z; [do 2 f_equal; lia|].
  reflexivity.
Qed.

(** The weight a rule passes along has no influence on the votes. *)
Lemma vote_signals_ignore_weight (buy sell : bool) (w w' : Q) (t : tally) :
  fst (vote buy sell w t) = fst (vote buy sell w' t).
Proof. unfold vote. destruct buy, sell; reflexivity. Qed.

(** C1. The action and the confidence of an indicator-based signal are a
    function of the two vote counts alone: BUY when the BUY votes outnumber
    the SELL votes, SELL in the converse case, HOLD on a tie; the confidence
    is [min(95, 60 + 8 * winning count)] for BUY and SELL and 50 for HOLD.
    Two BUY votes against none give BUY at 76%. *)
Theorem C1_vote_counts_decide (i : Inputs) (timeframe : string) :
  let b := buy_signals i in
  let s := sell_signals i in
  let d := _generate_signal_from_indicators i timeframe in
  ((s < b)%Z ->
     get d "action" = Some (VStr "BUY") /\
     get d "confidence" = Some (VStr (percent (Z.min 95 (60 + 8 * b))))) /\
  ((b < s)%Z ->
     get d "action" = Some (VStr "SELL") /\
     get d "confidence" = Some (VStr (percent (Z.min 95 (60 + 8 * s))))) /\
  (b = s ->
     get d "action" = Some (VStr "HOLD") /\
     get d "confidence" = Some (VStr "50%")) /\
  (b = 2%Z -> s = 0%Z ->
     get d "action" = Some (VStr "BUY") /\
     get d "confidence" = Some (VStr "76%")).
Proof.
  intros b s d. unfold d.
  rewrite signal_action, signal_confidence, final_signal_cases.
  fold b. fold s.
  split; [|split; [|split]].
  - intros H. destruct (Z.ltb_spec s b); [now split | lia].
  - intros H. destruct (Z.ltb_spec s b); [lia|].
    destruct (Z.ltb_spec b s); [now split | lia].
  - intros H. destruct (Z.ltb_spec s b); [lia|].
    destruct (Z.ltb_spec b s); [lia | now split].
  - intros Hb Hs. rewrite Hb, Hs. now split.
Qed.


(** C6. With the SELL votes held fixed, an input with strictly more BUY
    votes, both signals being BUY, has a confidence at least as high. *)
Theorem C6_confidence_monotone_in_buy_votes
  (i1 i2 : Inputs) (timeframe1 timeframe2 : string) :
  let d1 := _generate_signal_from_indicators i1 timeframe1 in
  let d2 := _generate_signal_from_indicators i2 timeframe2 in
  sell_signals i1 = sell_signals i2 ->
  (buy_signals i2 < buy_signals i1)%Z ->
  get d1 "action" = Some (VStr "BUY") ->
  get d2 "action" = Some (VStr "BUY") ->
  exists c1 c2 : Z,
    get d1 "confidence" = Some (VStr (percent c1)) /\
    get d2 "confidence" = Some (VStr (percent c2)) /\
    (c2 <= c1)%Z.
Proof.
  intros d1 d2 Hs Hb H1 H2. unfold d1, d2 in *.
  apply (signal_action_inv _ _ BUY) in H1, H2.
  rewrite !signal_confidence.
  rewrite final_signal_cases in H1, H2 |- *.
  rewrite final_signal_cases.
  destruct (Z.ltb_spec (sell_signals i1) (buy_signals i1));
    [|destruct (buy_signals i1 <? sell_signals i1)%Z; discriminate].
  destruct (Z.ltb_spec (sell_signals i2) (buy_signals i2));
    [|destruct (buy_signals i2 <? sell_signals i2)%Z; discriminate].
  exists (Z.min 95 (60 + 8 * buy_signals i1))%Z,
         (Z.min 95 (60 + 8 * buy_signals i2))%Z.
  split; [reflexivity | split; [reflexivity | lia]].
Qed.

Example uptrend_oversold_is_buy_76 :
  signals (uptrend 25%Q) = [BUY; BUY] /\
  confidence_factors (uptrend 25%Q) = [0.25%Q; 0.20%Q] /\
  get (_generate_signal_from_indicators (uptrend 25%Q) "1h") "action"
    = Some (VStr "BUY") /\
  get (_generate_signal_from_indicators (uptrend 25%Q) "1h") "confidence"
    = Some (VStr "76%").
Proof. vm_compute. repeat split. Qed.

Lemma C6_confidence_monotone_witness :
  exists c1 c2 : Z,
    get (_generate_signal_from_indicators (uptrend 25%Q) "1h") "confidence"
      = Some (VStr (percent c1)) /\
    get (_generate_signal_from_indicators (uptrend 50%Q) "4h") "confidence"
      = Some (VStr (percent c2)) /\
    (c2 <= c1)%Z.
Proof.
  apply (C6_confidence_monotone_in_buy_votes
           (uptrend 25%Q) (uptrend 50%Q) "1h" "4h");
    vm_compute; reflexivity.
Defined.

(** ** Order facts on floats *)

Lemma ltb_Fin (a b : Q) : ltb (Fin a) (Fin b) = true <-> (a < b)%Q.
Proof.
  unfold ltb; simpl. rewrite Qlt_alt. destruct (a ?= b)%Q; split; congruence.
Qed.

Lemma leb_Fin (a b : Q) : leb (Fin a) (Fin b) = true <-> (a <= b)%Q.
Proof.
  unfold leb; simpl. rewrite Qle_alt. destruct (a ?= b)%Q; split; congruence.
Qed.



Lemma ltb_leb (x y : float) : ltb x y = true -> leb x y = true.
Proof.
  unfold ltb, leb. destruct (compare x y) as [[]|]; congruence.
Qed.

(** Nothing is below or above NaN. *)
Lemma ltb_nan_r (x : float) : ltb x NaN = false.
Proof. destruct x; reflexivity. Qed.

Lemma ltb_nan_l (x : float) : ltb NaN x = false.
Proof. reflexivity. Qed.

(** [x < y] and [y < x] exclude each other. *)
Lemma ltb_asym (x y : float) : ltb x y = true -> ltb y x = false.
Proof.
  destruct x as [| |a|], y as [| |b|]; try discriminate; try reflexivity.
  rewrite ltb_Fin. intros H. apply not_true_iff_false. rewrite ltb_Fin. lra.
Qed.

Lemma leb_trans (x y z : float) :
  leb x y = true -> leb y z = true -> leb x z = true.
Proof.
  destruct x as [| |a|], y as [| |b|], z as [| |c|];
    try discriminate; try reflexivity.
  rewrite !leb_Fin. lra.
Qed.

(** Rounding to the nearest integer, and hence [round], is monotone. *)
Lemma round_half_even_mono (a b : Q) :
  (a <= b)%Q -> (round_half_even a <= round_half_even b)%Z.
Proof.
  intros Hab. unfold round_half_even.
  pose proof (Qfloor_resp_le _ _ Hab) as Hfg.
  destruct (Z.eq_dec (Qfloor a) (Qfloor b)) as [E|NE].
  - rewrite <- E.
    destruct (Qcompare_spec (a - inject_Z (Qfloor a)) (1 # 2)) as [Ha|Ha|Ha];
    destruct (Qcompare_spec (b - inject_Z (Qfloor a)) (1 # 2)) as [Hb|Hb|Hb];
    try destruct (Z.even (Qfloor a)); try lia; exfalso; lra.
  - assert (Qfloor a + 1 <= Qfloor b)%Z by lia.
    destruct (a - inject_Z (Qfloor a) ?= 1 # 2)%Q;
    destruct (b - inject_Z (Qfloor b) ?= 1 # 2)%Q;
    try destruct (Z.even (Qfloor a)); try destruct (Z.even (Qfloor b)); lia.
Qed.

Lemma round_mono (x y : float) (n : nat) :
  leb x y = true -> leb (round x n) (round y n) = true.
Proof.
  destruct x as [| |a|], y as [| |b|]; try discriminate; try reflexivity.
  unfold round. rewrite !leb_Fin. intros Hab.
  set (s := Z.to_pos (10 ^ Z.of_nat n)).
  rewrite !Qred_correct.
  unfold Qle; simpl.
  apply Z.mul_le_mono_nonneg_r; [lia|].
  apply round_half_even_mono.
  apply Qmult_le_compat_r; [assumption|]. unfold Qle; simpl; lia.
Qed.


(** ** Ordering of the price targets *)




(** The same happens through [analyze_csv_data]: every candle of the file
    closes at its high, the last close is the resistance, the signal is SELL
    and its stop loss is the entry. *)
Example close_at_high_stops_at_entry :
  let d := analyze_csv_data ta_stub (Ok (closing_high_table 20)) "1h" in
  get d "action" = Some (VStr "SELL") /\
  price d "entry" = 119%Q /\
  price d "stop_loss" = 119%Q /\
  price d "take_profit" = (5831 # 50)%Q.
Proof. vm_compute. repeat split. Qed.



(** ** The image path *)



Example flat_lines_are_neutral :
  _detect_chart_patterns unit
    (fun _ => Some [(0, 5, 200, 5); (10, 40, 150, 40)]%Z)
    (fun dy dx => if (dy =? 0)%Z then 0%Q else NaN) tt
  = {| trend_lines := 2; bullish_pattern := false; bearish_pattern := false |}.
Proof. reflexivity. Qed.

Example rising_lines_are_bullish :
  _detect_chart_patterns unit
    (fun _ => Some [(0, 0, 100, 100); (0, 10, 120, 130)]%Z)
    (fun dy dx => if (dy =? dx)%Z then 45%Q else NaN) tt
  = {| trend_lines := 2; bullish_pattern := true; bearish_pattern := false |}.
Proof. reflexivity. Qed.

Lemma image_signal_unfold (patterns : Patterns) (timeframe : string)
  (base_price : float) :
  _generate_image_based_signal patterns timeframe base_price =
  let action := fst (image_action patterns) in
  let levels := image_levels action base_price in
  [ ("action", VStr (Action_str action));
    ("entry", VFloat (round (fst (fst levels)) 2));
    ("take_profit", VFloat (round (snd (fst levels)) 2));
    ("stop_loss", VFloat (round (snd levels) 2));
    ("confidence", VStr (percent (snd (image_action patterns))));
    ("timeframe", VStr timeframe);
    ("patterns", VDict (Patterns_dict patterns));
    ("analysis_type", VStr "chart_pattern") ]%string.
Proof.
  unfold _generate_image_based_signal.
  destruct (image_action patterns) as [a c]. simpl.
  destruct (image_levels a base_price) as [[e tp] sl]. reflexivity.
Qed.


(** ** Error signals *)

Lemma calculate_indicators_shape (lib : ta.library) (df : DataFrame)
  (timeframe : string) (d : dict) :
  _calculate_indicators lib df timeframe = Ok d ->
  exists i : Inputs, d = _generate_signal_from_indicators i timeframe.
Proof.
  unfold _calculate_indicators, bind.
  destruct (float_column df "close"); [|discriminate].
  destruct (float_column df "high"); [|discriminate].
  destruct (float_column df "low"); [|discriminate].
  destruct (float_column df "open"); [|discriminate].
  destruct (_find_support_resistance df) as [[s r]|]; [|discriminate].
  destruct (iloc_last _); [|discriminate].
  intros [= <-]. eexists. reflexivity.
Qed.

(** The tabular path returns an error signal or an indicator signal. *)
Lemma analyze_csv_data_shape (lib : ta.library) (file : result DataFrame)
  (timeframe : string) :
  (exists msg, analyze_csv_data lib file timeframe
               = _generate_error_signal msg) \/
  (exists i, analyze_csv_data lib file timeframe
             = _generate_signal_from_indicators i timeframe).
Proof.
  unfold analyze_csv_data.
  destruct file as [df|e]; cbn [bind]; [|left; eexists; reflexivity].
  destruct (negb _); [left; eexists; reflexivity|].
  destruct (convert_required _) as [df'|e]; cbn [bind];
    [|left; eexists; reflexivity].
  destruct (len _ <? 20)%nat; [left; eexists; reflexivity|].
  destruct (_calculate_indicators _ _ _) as [d|e] eqn:E;
    [|left; eexists; reflexivity].
  right. now apply calculate_indicators_shape in E.
Qed.

(** C10. Every error signal either entry point returns has action HOLD and
    [error = True], and has neither a [timeframe] nor an [indicators] nor a
    [patterns] key; a returned signal that is not an error signal has a
    [timeframe] and one of the other two. *)
Theorem C10_error_signal_fields (d : dict) :
  returned d ->
  (is_error_signal d ->
     get d "action" = Some (VStr "HOLD") /\
     get d "error" = Some (VBool true) /\
     get d "timeframe" = None /\
     get d "indicators" = None /\
     get d "patterns" = None) /\
  (~ is_error_signal d ->
     get d "error" = None /\
     get d "timeframe" <> None /\
     (get d "indicators" <> None \/ get d "patterns" <> None)).
Proof.
  unfold is_error_signal.
  intros [lib file tf ->|image hl at2 imread tf base ->].
  - destruct (analyze_csv_data_shape lib file tf) as [[msg ->]|[i ->]].
    + split; [now repeat split | intros H; now destruct H].
    + rewrite signal_unfold. split; [discriminate|].
      intros _. split; [reflexivity|]. split; [discriminate|].
      left; discriminate.
  - destruct imread as [img|]; simpl.
    + rewrite image_signal_unfold. split; [discriminate|].
      intros _. split; [reflexivity|]. split; [discriminate|].
      right; discriminate.
    + split; [now repeat split | intros H; now destruct H].
Qed.

(** ** Support and resistance *)

Lemma leb_not_nan_l (x y : float) : leb x y = true -> is_nan x = false.
Proof. destruct x; [discriminate | reflexivity..]. Qed.

Lemma leb_not_nan_r (x y : float) : leb x y = true -> is_nan y = false.
Proof. destruct x, y; try discriminate; reflexivity. Qed.

Lemma leb_refl (x : float) : is_nan x = false -> leb x x = true.
Proof.
  destruct x as [| |a|]; try discriminate; try reflexivity.
  intros _. apply leb_Fin. lra.
Qed.

Lemma ltb_false_leb (x y : float) :
  is_nan x = false -> is_nan y = false -> ltb x y = false -> leb y x = true.
Proof.
  destruct x as [| |a|], y as [| |b|]; try discriminate; try reflexivity.
  intros _ _ H. apply not_true_iff_false in H. rewrite ltb_Fin in H.
  apply leb_Fin. lra.
Qed.

(** One step of [min]: the result is a number below the new value and
    below the old one. *)
Lemma keep_min_spec (acc x : float) :
  is_nan x = false ->
  let m := keep_better ltb acc x in
  is_nan m = false /\ leb m x = true /\
  (is_nan acc = false -> leb m acc = true).
Proof.
  intros Hx. unfold keep_better. rewrite Hx.
  destruct (is_nan acc) eqn:Ha.
  - repeat split; auto using leb_refl. discriminate.
  - destruct (ltb x acc) eqn:Hlt.
    + repeat split; auto using leb_refl, ltb_leb.
    + repeat split; auto using leb_refl, ltb_false_leb.
Qed.

Lemma keep_max_spec (acc x : float) :
  is_nan x = false ->
  let m := keep_better gtb acc x in
  is_nan m = false /\ leb x m = true /\
  (is_nan acc = false -> leb acc m = true).
Proof.
  intros Hx. unfold keep_better, gtb. rewrite Hx.
  destruct (is_nan acc) eqn:Ha.
  - repeat split; auto using leb_refl. discriminate.
  - destruct (ltb acc x) eqn:Hlt.
    + repeat split; auto using leb_refl, ltb_leb.
    + repeat split; auto using leb_refl, ltb_false_leb.
Qed.

Lemma fold_min_below_acc (xs : list float) (acc : float) :
  is_nan acc = false ->
  leb (fold_left (keep_better ltb) xs acc) acc = true.
Proof.
  revert acc. induction xs as [|x xs IH]; intros acc Ha; simpl.
  - now apply leb_refl.
  - destruct (is_nan x) eqn:Hx.
    + unfold keep_better at 2. rewrite Hx. now apply IH.
    + destruct (keep_min_spec acc x Hx) as (Hm & _ & Hacc).
      eapply leb_trans; [apply IH; exact Hm | now apply Hacc].
Qed.

Lemma fold_min_below (xs : list float) (acc x : float) :
  In x xs -> is_nan x = false ->
  leb (fold_left (keep_better ltb) xs acc) x = true.
Proof.
  revert acc. induction xs as [|y xs IH]; intros acc Hin Hx;
    [destruct Hin | destruct Hin as [->|Hin]]; simpl.
  - destruct (keep_min_spec acc x Hx) as (Hm & Hle & _).
    eapply leb_trans; [apply fold_min_below_acc; exact Hm | exact Hle].
  - now apply IH.
Qed.

Lemma fold_max_above_acc (xs : list float) (acc : float) :
  is_nan acc = false ->
  leb acc (fold_left (keep_better gtb) xs acc) = true.
Proof.
  revert acc. induction xs as [|x xs IH]; intros acc Ha; simpl.
  - now apply leb_refl.
  - destruct (is_nan x) eqn:Hx.
    + unfold keep_better at 2. rewrite Hx. now apply IH.
    + destruct (keep_max_spec acc x Hx) as (Hm & _ & Hacc).
      eapply leb_trans; [now apply Hacc | apply IH; exact Hm].
Qed.

Lemma fold_max_above (xs : list float) (acc x : float) :
  In x xs -> is_nan x = false ->
  leb x (fold_left (keep_better gtb) xs acc) = true.
Proof.
  revert acc. induction xs as [|y xs IH]; intros acc Hin Hx;
    [destruct Hin | destruct Hin as [->|Hin]]; simpl.
  - destruct (keep_max_spec acc x Hx) as (Hm & Hle & _).
    eapply leb_trans; [exact Hle | apply fold_max_above_acc; exact Hm].
  - now apply IH.
Qed.

(** [s.min()] is below, and [s.max()] above, every number of [s]. *)
Lemma series_min_le (s : list float) (x : float) :
  In x s -> is_nan x = false -> leb (series_min s) x = true.
Proof. apply fold_min_below. Qed.

Lemma series_max_ge (s : list float) (x : float) :
  In x s -> is_nan x = false -> leb x (series_max s) = true.
Proof. apply fold_max_above. Qed.

Lemma iloc_last_inv (s : list float) (x : float) :
  iloc_last s = Ok x -> exists s', s = (s' ++ [x])%list.
Proof.
  unfold iloc_last. destruct (rev s) as [|y r] eqn:E; [discriminate|].
  intros [= ->]. exists (rev r).
  rewrite <- (rev_involutive s), E. reflexivity.
Qed.


(** The last element survives [tail n] for [n >= 1]. *)
Lemma tail_snoc (n : nat) (s : list float) (x : float) :
  tail (S n) (s ++ [x]) = (tail n s ++ [x])%list.
Proof.
  unfold tail. rewrite length_app. simpl.
  replace (List.length s + 1 - S n)%nat with (List.length s - n)%nat by lia.
  rewrite skipn_app.
  replace (List.length s - n - List.length s)%nat with 0%nat by lia.
  reflexivity.
Qed.

Lemma Forall2_last {A B : Type} (R : A -> B -> Prop) (xs : list A)
  (ys : list B) (y : B) :
  Forall2 R xs (ys ++ [y]) -> exists x, In x xs /\ R x y.
Proof.
  intros H. apply Forall2_app_inv_r in H as (l1 & l2 & _ & H2 & ->).
  inversion H2 as [|x ? l2' ? Hxy Hnil]; subst.
  exists x. split; [|exact Hxy]. apply in_or_app. right. now left.
Qed.

Lemma Forall2_last_l {A B : Type} (R : A -> B -> Prop) (xs : list A)
  (x : A) (ys : list B) :
  Forall2 R (xs ++ [x]) ys -> exists y, In y ys /\ R x y.
Proof.
  intros H. apply Forall2_app_inv_l in H as (l1 & l2 & _ & H2 & ->).
  inversion H2 as [|? y ? l2' Hxy Hnil]; subst.
  exists y. split; [|exact Hxy]. apply in_or_app. right. now left.
Qed.

(** C9. When each of the most recent 20 candles has
    [low <= close <= high], the support (lowest low of the last 20 candles)
    and the resistance (highest high of the last 20) bracket the entry, the
    last close: [support <= entry <= resistance]. *)
Theorem C9_support_resistance_bracket_entry
  (df : DataFrame) (low high close : list float)
  (support resistance entry : float) :
  float_column df "low" = Ok low ->
  float_column df "high" = Ok high ->
  float_column df "close" = Ok close ->
  Forall2 (fun l c => leb l c = true) (tail 20 low) (tail 20 close) ->
  Forall2 (fun c h => leb c h = true) (tail 20 close) (tail 20 high) ->
  _find_support_resistance df = Ok (support, resistance) ->
  iloc_last close = Ok entry ->
  leb support entry = true /\ leb entry resistance = true.
Proof.
  intros Hlow Hhigh Hclose Hlc Hch Hsr Hlast.
  unfold _find_support_resistance in Hsr.
  rewrite Hhigh, Hlow in Hsr. cbn [bind] in Hsr.
  injection Hsr as <- <-.
  apply iloc_last_inv in Hlast as [close' ->].
  rewrite tail_snoc in Hlc, Hch.
  apply Forall2_last in Hlc as (l & Hl & Hle).
  apply Forall2_last_l in Hch as (h & Hh & Hge).
  split.
  - eapply leb_trans; [|exact Hle].
    apply series_min_le; [exact Hl | now apply leb_not_nan_l in Hle].
  - eapply leb_trans; [exact Hge|].
    apply series_max_ge; [exact Hh | now apply leb_not_nan_r in Hge].
Qed.

(** ** The tabular path: validation and cleaning *)

Lemma at_set_nth_same (i : nat) (v : cell) (row : list cell) :
  (i < List.length row)%nat -> at_ (set_nth i v row) i = v.
Proof.
  revert i. induction row as [|c row IH]; intros [|i] H; simpl in *;
    try lia; [reflexivity|]. apply IH. lia.
Qed.

Lemma at_set_nth_other (i j : nat) (v : cell) (row : list cell) :
  i <> j -> at_ (set_nth i v row) j = at_ row j.
Proof.
  revert i j. induction row as [|c row IH]; intros [|i] [|j] H; simpl;
    try reflexivity; try lia. apply IH. lia.
Qed.

Lemma set_nth_short (i : nat) (v : cell) (row : list cell) :
  (List.length row <= i)%nat -> set_nth i v row = row.
Proof.
  revert i. induction row as [|c row IH]; intros [|i] H; simpl in *;
    try reflexivity; try lia. f_equal. apply IH. lia.
Qed.

Lemma at_coerce_at_same (i : nat) (row : list cell) :
  at_ (coerce_at i row) i = CNum (coerce (at_ row i)).
Proof.
  unfold coerce_at.
  destruct (Nat.lt_ge_cases i (List.length row)) as [H|H].
  - now apply at_set_nth_same.
  - rewrite set_nth_short by exact H.
    unfold at_. now rewrite nth_overflow.
Qed.

Lemma at_coerce_at_other (i j : nat) (row : list cell) :
  i <> j -> at_ (coerce_at i row) j = at_ row j.
Proof. apply at_set_nth_other. Qed.

(** A numeric field is left as it is. *)
Lemma at_coerce_at_num (i j : nat) (row : list cell) (x : float) :
  at_ row j = CNum x -> at_ (coerce_at i row) j = CNum x.
Proof.
  intros H. destruct (Nat.eq_dec i j) as [->|N].
  - now rewrite at_coerce_at_same, H.
  - now rewrite at_coerce_at_other.
Qed.

Lemma coerce_at_coerce_at (i j : nat) (row : list cell) :
  coerce (at_ (coerce_at i row) j) = coerce (at_ row j).
Proof.
  destruct (Nat.eq_dec i j) as [->|N].
  - now rewrite at_coerce_at_same.
  - now rewrite at_coerce_at_other.
Qed.

Lemma at_coerced_num (ps : list nat) (j : nat) (row : list cell) (x : float) :
  at_ row j = CNum x -> at_ (coerced ps row) j = CNum x.
Proof.
  revert row. induction ps as [|i ps IH]; intros row H; simpl; [exact H|].
  apply IH. now apply at_coerce_at_num.
Qed.

Lemma at_coerced_in (ps : list nat) (j : nat) (row : list cell) :
  In j ps -> at_ (coerced ps row) j = CNum (coerce (at_ row j)).
Proof.
  revert row. induction ps as [|i ps IH]; intros row Hin; [destruct Hin|].
  simpl. destruct (Nat.eq_dec i j) as [->|N].
  - apply at_coerced_num, at_coerce_at_same.
  - destruct Hin as [E|Hin]; [contradiction|].
    rewrite IH by exact Hin. now rewrite at_coerce_at_other.
Qed.

(** One pass of the loop on a label that names a single column. *)
Lemma convert_step (df : DataFrame) (col : string) (i : nat) :
  positions df col = [i] ->
  convert_column df col
  = Ok {| columns := columns df; data := map (coerce_at i) (data df) |}.
Proof.
  intros H. unfold convert_column, getitem, setitem. rewrite H. cbn [bind to_numeric].
  do 2 f_equal.
  induction (data df) as [|row rows IH]; [reflexivity|].
  simpl. now rewrite IH.
Qed.

(** A label that names several columns stops the loop. *)
Lemma convert_step_raises (df : DataFrame) (col : string) (i j : nat)
  (ps : list nat) :
  positions df col = i :: j :: ps ->
  convert_column df col
  = Raise "arg must be a list, tuple, 1-d array, or Series".
Proof.
  intros H. unfold convert_column, getitem. rewrite H. reflexivity.
Qed.

Lemma for_each_convert (cols : list string) (ps : list nat) :
  forall df : DataFrame,
  Forall2 (fun col i => positions df col = [i]) cols ps ->
  for_each cols convert_column df
  = Ok {| columns := columns df; data := map (coerced ps) (data df) |}.
Proof.
  revert ps. induction cols as [|col cols IH]; intros ps df H;
    inversion H as [|? i ? ps' Hp Hrest]; subst; simpl.
  - destruct df as [c d]. simpl. do 2 f_equal.
    exact (eq_sym (map_id d)).
  - rewrite (convert_step _ _ _ Hp). cbn [bind].
    rewrite (IH ps').
    + simpl. now rewrite map_map.
    + exact Hrest.
Qed.

Lemma unique_required_inv (df : DataFrame) :
  unique_required df = true ->
  exists io ih il ic, single_columns df io ih il ic.
Proof.
  unfold unique_required, required_cols. cbn [forallb].
  destruct (positions df "open") as [|io [|]] eqn:Eo; try discriminate.
  destruct (positions df "high") as [|ih [|]] eqn:Eh; try discriminate.
  destruct (positions df "low") as [|il [|]] eqn:El; try discriminate.
  destruct (positions df "close") as [|ic [|]] eqn:Ec; try discriminate.
  intros _. exists io, ih, il, ic. now split.
Qed.

Lemma single_required_positions (df : DataFrame) (io ih il ic : nat) :
  single_columns df io ih il ic -> required_positions df = [io; ih; il; ic].
Proof.
  intros [Ho Hh Hl Hc]. unfold required_positions, required_cols.
  cbn [flat_map]. now rewrite Ho, Hh, Hl, Hc.
Qed.

Lemma convert_required_single (df : DataFrame) (io ih il ic : nat) :
  single_columns df io ih il ic ->
  convert_required df
  = Ok {| columns := columns df;
          data := map (coerced (required_positions df)) (data df) |}.
Proof.
  intros S. rewrite (single_required_positions _ _ _ _ _ S).
  destruct S as [Ho Hh Hl Hc].
  apply (for_each_convert required_cols [io; ih; il; ic]).
  unfold required_cols. repeat constructor; assumption.
Qed.

Lemma filter_map {A B : Type} (f : A -> B) (p : B -> bool) (l : list A) :
  filter p (map f l) = map f (filter (fun x => p (f x)) l).
Proof.
  induction l as [|x l IH]; simpl; [reflexivity|].
  destruct (p (f x)); simpl; now rewrite IH.
Qed.

Lemma cleaned_data (df : DataFrame) (io ih il ic : nat) :
  single_columns df io ih il ic ->
  data (cleaned df) = map (coerced [io; ih; il; ic]) (valid_rows df).
Proof.
  intros S. unfold cleaned, dropna, valid_rows. cbn [data].
  rewrite (single_required_positions _ _ _ _ _ S).
  rewrite filter_map. f_equal. apply filter_ext. intros row.
  unfold row_complete, row_valid, positions, required_cols.
  cbn [columns forallb].
  destruct S as [Ho Hh Hl Hc]. unfold positions in Ho, Hh, Hl, Hc.
  rewrite Ho, Hh, Hl, Hc. cbn [forallb].
  rewrite !at_coerced_in by (simpl; tauto).
  reflexivity.
Qed.

Lemma as_floats_numbers {A : Type} (g : A -> float) (l : list A) :
  as_floats (map (fun a => CNum (g a)) l) = Ok (map g l).
Proof.
  induction l as [|a l IH]; simpl; [reflexivity | now rewrite IH].
Qed.

Lemma float_column_cleaned (df : DataFrame) (io ih il ic : nat)
  (col : string) (i : nat) :
  single_columns df io ih il ic ->
  positions df col = [i] -> In i [io; ih; il; ic] ->
  float_column (cleaned df) col
  = Ok (map (fun row => coerce (at_ row i)) (valid_rows df)).
Proof.
  intros S Hp Hin. unfold float_column, getitem.
  change (positions (cleaned df) col) with (positions df col). rewrite Hp.
  cbn [bind]. rewrite (cleaned_data _ _ _ _ _ S), map_map.
  rewrite <- as_floats_numbers. f_equal. apply map_ext. intros row.
  now apply at_coerced_in.
Qed.

Lemma positions_from_nil (k : nat) (col : string) (cols : list string) :
  positions_from k col cols = [] <-> contains cols col = false.
Proof.
  unfold contains. revert k. induction cols as [|c cols IH]; intros k; simpl.
  - tauto.
  - rewrite (String.eqb_sym col c). destruct (String.eqb c col); simpl.
    + split; discriminate.
    + apply IH.
Qed.

Lemma has_required_inv (df : DataFrame) (col : string) :
  has_required df = true -> In col required_cols -> positions df col <> [].
Proof.
  unfold has_required. rewrite forallb_forall. intros H Hin E.
  apply positions_from_nil in E. rewrite (H _ Hin) in E. discriminate.
Qed.


(** The body of [analyze_csv_data] on a file that was read. *)
Lemma analyze_csv_data_read (lib : ta.library) (df : DataFrame)
  (timeframe : string) :
  analyze_csv_data lib (Ok df) timeframe =
  let df0 := normalize df in
  if negb (has_required df0) then
    _generate_error_signal
      "Invalid CSV format. Required columns: Open, High, Low, Close"
  else
    match convert_required df0 with
    | Ok df1 =>
        if (len (dropna df1 required_cols) <? 20)%nat then
          _generate_error_signal
            "Insufficient data for analysis (minimum 20 candles required)"
        else
          match _calculate_indicators lib (dropna df1 required_cols)
                  timeframe with
          | Ok d => d
          | Raise e => _generate_error_signal ("CSV analysis failed: " ++ e)
          end
    | Raise e => _generate_error_signal ("CSV analysis failed: " ++ e)
    end.
Proof.
  unfold analyze_csv_data. cbn [bind]. cbv zeta.
  change (map_columns (standardize df)) with (normalize df).
  change (forallb (contains (columns (normalize df))) required_cols)
    with (has_required (normalize df)).
  destruct (negb (has_required (normalize df))); [reflexivity|].
  destruct (convert_required (normalize df)) as [df1|e]; cbn [bind];
    [|reflexivity].
  destruct (len (dropna df1 required_cols) <? 20)%nat; reflexivity.
Qed.

(** A repeated required label makes the conversion loop raise. *)
Lemma convert_required_repeated (df : DataFrame) :
  has_required df = true -> unique_required df = false ->
  convert_required df
  = Raise "arg must be a list, tuple, 1-d array, or Series".
Proof.
  intros Hhas Huniq.
  pose proof (has_required_inv df "open" Hhas) as Ho.
  pose proof (has_required_inv df "high" Hhas) as Hh.
  pose proof (has_required_inv df "low" Hhas) as Hl.
  pose proof (has_required_inv df "close" Hhas) as Hc.
  unfold required_cols in Ho, Hh, Hl, Hc. cbn [In] in Ho, Hh, Hl, Hc.
  unfold unique_required, required_cols in Huniq. cbn [forallb] in Huniq.
  unfold convert_required, required_cols. cbn [for_each].
  destruct (positions df "open") as [|io [|jo po]] eqn:Eo;
    [exfalso; apply Ho; tauto | |
     now rewrite (convert_step_raises _ _ _ _ _ Eo)].
  rewrite (convert_step _ _ _ Eo). cbn [bind].
  set (df1 := {| columns := columns df; data := _ |}).
  change (positions df "high") with (positions df1 "high") in *.
  change (positions df "low") with (positions df1 "low") in *.
  change (positions df "close") with (positions df1 "close") in *.
  destruct (positions df1 "high") as [|ih [|jh ph]] eqn:Eh;
    [exfalso; apply Hh; tauto | |
     now rewrite (convert_step_raises _ _ _ _ _ Eh)].
  rewrite (convert_step _ _ _ Eh). cbn [bind].
  set (df2 := {| columns := columns df1; data := _ |}).
  change (positions df1 "low") with (positions df2 "low") in *.
  change (positions df1 "close") with (positions df2 "close") in *.
  destruct (positions df2 "low") as [|il [|jl pl]] eqn:El;
    [exfalso; apply Hl; tauto | |
     now rewrite (convert_step_raises _ _ _ _ _ El)].
  rewrite (convert_step _ _ _ El). cbn [bind].
  set (df3 := {| columns := columns df2; data := _ |}).
  change (positions df2 "close") with (positions df3 "close") in *.
  destruct (positions df3 "close") as [|ic [|jc pc]] eqn:Ec;
    [exfalso; apply Hc; tauto | |
     now rewrite (convert_step_raises _ _ _ _ _ Ec)].
  discriminate Huniq.
Qed.

Lemma cleaned_len (df : DataFrame) (io ih il ic : nat) :
  single_columns df io ih il ic ->
  len (cleaned df) = List.length (valid_rows df).
Proof.
  intros S. unfold len. rewrite (cleaned_data _ _ _ _ _ S).
  apply length_map.
Qed.

Lemma iloc_last_nonempty (s : list float) :
  s <> [] -> exists x, iloc_last s = Ok x.
Proof.
  unfold iloc_last. intros H. destruct (rev s) as [|x r] eqn:E.
  - exfalso. apply H. rewrite <- (rev_involutive s), E. reflexivity.
  - now exists x.
Qed.






(** ** Examples, counterexamples and witnesses on concrete tables *)

Example missing_low_is_invalid_format :
  analyze_csv_data ta_stub (Ok (no_low_table 30)) "1h"
  = _generate_error_signal
      "Invalid CSV format. Required columns: Open, High, Low, Close".
Proof. vm_compute. reflexivity. Qed.

Example nineteen_rows_are_insufficient :
  List.length (valid_rows (normalize (dated_table 19))) = 19%nat /\
  analyze_csv_data ta_stub (Ok (dated_table 19)) "1h"
  = _generate_error_signal
      "Insufficient data for analysis (minimum 20 candles required)".
Proof. vm_compute. split; reflexivity. Qed.

Example unreadable_file_is_an_error :
  analyze_csv_data ta_stub (Raise "No columns to parse from file") "1h"
  = _generate_error_signal
      "CSV analysis failed: No columns to parse from file".
Proof. reflexivity. Qed.

Example twenty_five_rows_give_a_signal :
  let d := analyze_csv_data ta_stub (Ok (dated_table 25)) "1h" in
  get d "analysis_type" = Some (VStr "technical_indicators") /\
  get d "action" = Some (VStr "SELL") /\
  get d "confidence" = Some (VStr "68%") /\
  price d "entry" = 124%Q /\
  price d "stop_loss" = 125%Q.
Proof. vm_compute. repeat split. Qed.




Lemma C9_support_resistance_witness :
  leb 104%Q 124%Q = true /\ leb 124%Q 125%Q = true.
Proof.
  apply (C9_support_resistance_bracket_entry
           (cleaned (normalize (dated_table 25)))
           (rising_series (-1) 25) (rising_series 1 25) (rising_series 0 25)
           104%Q 125%Q 124%Q).
  - vm_compute. reflexivity.
  - vm_compute. reflexivity.
  - vm_compute. reflexivity.
  - vm_compute. repeat constructor.
  - vm_compute. repeat constructor.
  - vm_compute. reflexivity.
  - vm_compute. reflexivity.
Defined.

Lemma C10_error_signal_witness :
  let d := analyze_csv_data ta_stub (Ok (no_low_table 30)) "1h" in
  (is_error_signal d ->
     get d "action" = Some (VStr "HOLD") /\
     get d "error" = Some (VBool true) /\
     get d "timeframe" = None /\
     get d "indicators" = None /\
     get d "patterns" = None) /\
  (~ is_error_signal d ->
     get d "error" = None /\
     get d "timeframe" <> None /\
     (get d "indicators" <> None \/ get d "patterns" <> None)).
Proof.
  apply C10_error_signal_fields.
  apply (returned_csv _ ta_stub (Ok (no_low_table 30)) "1h").
  reflexivity.
Defined.

(* ================================================================== *)
(** * Further properties *)

(** ** Votes and confidence *)

Lemma count_snoc (a x : Action) (l : list Action) :
  count a (l ++ [x]) = (count a l + (if Action_eqb x a then 1 else 0))%Z.
Proof.
  induction l as [|y l IH]; simpl; [lia | rewrite IH; lia].
Qed.

(** One [if/elif] block adds at most one vote, and a weight with it. *)
Lemma vote_tallied (buy sell : bool) (w : Q) (n : Z) (t : tally) :
  tallied n t -> tallied (n + 1) (vote buy sell w t).
Proof.
  unfold tallied, vote. intros (Hb & Hs & Hn & Hh & Hl & Hw).
  destruct buy; [|destruct sell]; cbn [fst snd];
    rewrite ?count_snoc, ?length_app; cbn [Action_eqb List.length];
    repeat split; lia.
Qed.

Lemma vote_bounds (i : Inputs) :
  (0 <= buy_signals i)%Z /\ (0 <= sell_signals i)%Z /\
  (buy_signals i + sell_signals i <= 6)%Z /\
  count HOLD (signals i) = 0%Z /\
  (buy_signals i + sell_signals i)%Z = Z.of_nat (List.length (signals i)) /\
  List.length (signals i) = List.length (confidence_factors i).
Proof.
  unfold buy_signals, sell_signals, signals, confidence_factors, rule_votes.
  cbv zeta.
  change (tallied 6 (proximity_rule i (stochastic_rule i (bollinger_rule i
            (macd_rule i (rsi_rule i (trend_rule i ([], [])))))))).
  unfold proximity_rule, stochastic_rule, bollinger_rule, macd_rule, rsi_rule,
    trend_rule.
  change 6%Z with (0 + 1 + 1 + 1 + 1 + 1 + 1)%Z.
  do 6 apply vote_tallied.
  unfold tallied. simpl. repeat split; lia.
Qed.

(** X1. Each of the six rules adds at most one vote, with its weight; the
    confidence of a signal is therefore one of 50, 68, 76, 84, 92 and 95,
    and it is 50 exactly for HOLD. *)
Theorem X1_confidence_values (i : Inputs) (timeframe : string) :
  let d := _generate_signal_from_indicators i timeframe in
  (0 <= buy_signals i)%Z /\ (0 <= sell_signals i)%Z /\
  (buy_signals i + sell_signals i <= 6)%Z /\
  List.length (signals i) = List.length (confidence_factors i) /\
  exists c : Z,
    get d "confidence" = Some (VStr (percent c)) /\
    In c [50; 68; 76; 84; 92; 95]%Z /\
    (c = 50%Z <-> get d "action" = Some (VStr "HOLD")).
Proof.
  intros d. unfold d.
  destruct (vote_bounds i) as (Hb & Hs & Hsum & _ & _ & Hlen).
  repeat (split; [assumption|]).
  rewrite signal_confidence, signal_action, final_signal_cases.
  destruct (Z.ltb_spec (sell_signals i) (buy_signals i)) as [H|H].
  - exists (Z.min 95 (60 + 8 * buy_signals i))%Z. cbn [fst snd].
    split; [reflexivity|].
    assert (buy_signals i = 1 \/ buy_signals i = 2 \/ buy_signals i = 3 \/
            buy_signals i = 4 \/ buy_signals i = 5 \/ buy_signals i = 6)%Z
      as C by lia.
    split.
    + destruct C as [C|[C|[C|[C|[C|C]]]]]; rewrite C; simpl; tauto.
    + split; [lia | discriminate].
  - destruct (Z.ltb_spec (buy_signals i) (sell_signals i)) as [H'|H'].
    + exists (Z.min 95 (60 + 8 * sell_signals i))%Z. cbn [fst snd].
      split; [reflexivity|].
      assert (sell_signals i = 1 \/ sell_signals i = 2 \/
              sell_signals i = 3 \/ sell_signals i = 4 \/
              sell_signals i = 5 \/ sell_signals i = 6)%Z as C by lia.
      split.
      * destruct C as [C|[C|[C|[C|[C|C]]]]]; rewrite C; simpl; tauto.
      * split; [lia | discriminate].
    + exists 50%Z. cbn [fst snd]. split; [reflexivity|].
      split; [simpl; tauto|]. split; reflexivity.
Qed.

Lemma is_nan_eq (x : float) : is_nan x = true -> x = NaN.
Proof. destruct x; try discriminate; reflexivity. Qed.

Lemma sub_nan_l (x : float) : Float.sub NaN x = NaN.
Proof. reflexivity. Qed.

Lemma sub_nan_r (x : float) : Float.sub x NaN = NaN.
Proof. destruct x; reflexivity. Qed.

Lemma div_nan_r (x : float) : Float.div x NaN = NaN.
Proof. destruct x; reflexivity. Qed.

Lemma vote_none (w : Q) (t : tally) : vote false false w t = t.
Proof. reflexivity. Qed.

(** X2. A rule casts no vote when a value it compares is NaN: any of the
    four averages for the trend rule, the RSI, the MACD or its signal line,
    either stochastic line, the price (or both bands) for the Bollinger
    rule, the price (or both levels) for the proximity rule. *)
Theorem X2_nan_inputs_cast_no_vote (i : Inputs) (t : tally) :
  (is_nan (sma_20 i) || is_nan (sma_50 i) || is_nan (ema_12 i)
   || is_nan (ema_26 i) = true -> trend_rule i t = t) /\
  (is_nan (rsi i) = true -> rsi_rule i t = t) /\
  (is_nan (macd i) || is_nan (macd_signal i) = true -> macd_rule i t = t) /\
  (is_nan (current_price i) || is_nan (bb_lower i) && is_nan (bb_upper i)
   = true -> bollinger_rule i t = t) /\
  (is_nan (stoch_k i) || is_nan (stoch_d i) = true ->
   stochastic_rule i t = t) /\
  (is_nan (current_price i) || is_nan (support i) && is_nan (resistance i)
   = true -> proximity_rule i t = t).
Proof.
  unfold trend_rule, rsi_rule, macd_rule, bollinger_rule, stochastic_rule,
    proximity_rule, gtb.
  repeat split; intros H;
    repeat match goal with
           | H : _ || _ = true |- _ => apply orb_true_iff in H; destruct H as [H|H]
           | H : _ && _ = true |- _ => apply andb_true_iff in H; destruct H
           | H : is_nan _ = true |- _ => apply is_nan_eq in H; rewrite H; clear H
           end;
    rewrite ?sub_nan_l, ?sub_nan_r, ?div_nan_r, ?ltb_nan_l, ?ltb_nan_r,
      ?andb_false_r; cbn [andb abs Float.div]; rewrite ?ltb_nan_l;
    reflexivity.
Qed.

Lemma quotient_by_negative (a p : Q) :
  (0 <= a)%Q -> (p < 0)%Q -> (a / p < 0.01)%Q.
Proof.
  intros Ha Hp.
  assert (a / p <= 0)%Q as H.
  { assert (a / p == - (a / - p))%Q as E by (field; lra).
    rewrite E.
    assert (0 <= a / - p)%Q by (apply Qle_shift_div_l; lra).
    lra. }
  lra.
Qed.

(** X3. For a negative price the proximity rule always votes BUY: the
    distance to the support is divided by the price itself, so the ratio is
    never positive. *)
Theorem X3_negative_price_votes_buy (i : Inputs) (t : tally) (p : Q) :
  current_price i = Fin p -> (p < 0)%Q -> is_nan (support i) = false ->
  proximity_rule i t = (fst t ++ [BUY], snd t ++ [0.15%Q]).
Proof.
  intros Hp Hneg Hs. unfold proximity_rule.
  assert (ltb (abs (Float.sub (current_price i) (support i))
               / current_price i)%float 0.01%Q = true) as E.
  { rewrite Hp. destruct (support i) as [| |s|]; try discriminate.
    - cbn. destruct (Z.ltb_spec (Qnum p) 0) as [L|L]; [reflexivity|].
      exfalso. unfold Qlt in Hneg. simpl in Hneg. lia.
    - cbn [Float.sub opp Float.add abs Float.div sign].
      destruct (Qeq_bool p 0) eqn:Z0.
      + apply Qeq_bool_iff in Z0. lra.
      + apply ltb_Fin. apply quotient_by_negative; [apply Qabs_nonneg | exact Hneg].
    - cbn. destruct (Z.ltb_spec (Qnum p) 0) as [L|L]; [reflexivity|].
      exfalso. unfold Qlt in Hneg. simpl in Hneg. lia. }
  unfold vote. rewrite E. reflexivity.
Qed.

(** ** The cleaned frame *)

(** A required label of a frame with single columns, and its position. *)
Lemma single_columns_position (df : DataFrame) (io ih il ic : nat)
  (col : string) :
  single_columns df io ih il ic -> In col required_cols ->
  exists i, positions df col = [i] /\ In i [io; ih; il; ic].
Proof.
  intros [Ho Hh Hl Hc] Hin. unfold required_cols in Hin. cbn [In] in Hin.
  destruct Hin as [<-|[<-|[<-|[<-|[]]]]].
  - exists io. split; [exact Ho | simpl; tauto].
  - exists ih. split; [exact Hh | simpl; tauto].
  - exists il. split; [exact Hl | simpl; tauto].
  - exists ic. split; [exact Hc | simpl; tauto].
Qed.

(** In a valid row the field under a required label is a number. *)
Lemma valid_row_field (df : DataFrame) (row : list cell) (col : string)
  (i : nat) :
  In row (valid_rows df) -> In col required_cols -> positions df col = [i] ->
  is_nan (coerce (at_ row i)) = false.
Proof.
  unfold valid_rows. intros Hrow Hcol Hp.
  apply filter_In in Hrow as [_ Hv]. unfold row_valid in Hv.
  rewrite forallb_forall in Hv. specialize (Hv col Hcol).
  rewrite Hp in Hv. cbn [forallb] in Hv.
  rewrite andb_true_r in Hv. now apply negb_true_iff in Hv.
Qed.

(** X4. When each required label names one column, the frame handed to the
    indicator computation holds a number other than NaN in every field of
    the four required columns, and as many rows as the table has valid
    rows. *)
Theorem X4_cleaned_columns_hold_numbers (df : DataFrame) (col : string) :
  unique_required df = true -> In col required_cols ->
  exists xs : list float,
    float_column (cleaned df) col = Ok xs /\
    List.length xs = len (cleaned df) /\
    len (cleaned df) = List.length (valid_rows df) /\
    Forall (fun x => is_nan x = false) xs.
Proof.
  intros Hu Hcol.
  destruct (unique_required_inv _ Hu) as (io & ih & il & ic & S).
  destruct (single_columns_position _ _ _ _ _ col S Hcol) as (i & Hp & Hi).
  exists (map (fun row => coerce (at_ row i)) (valid_rows df)).
  split; [now apply (float_column_cleaned df io ih il ic)|].
  rewrite (cleaned_len _ _ _ _ _ S), length_map.
  split; [reflexivity|]. split; [reflexivity|].
  apply Forall_map, Forall_forall. intros row Hrow.
  now apply (valid_row_field df row col i).
Qed.

(** X5. On a frame with at least one row, if each of the last 20 candles
    has [low <= high], the support is at most the resistance. *)
Theorem X5_support_below_resistance
  (df : DataFrame) (low high : list float) (support resistance : float) :
  float_column df "low" = Ok low ->
  float_column df "high" = Ok high ->
  low <> [] ->
  Forall2 (fun l h => leb l h = true) (tail 20 low) (tail 20 high) ->
  _find_support_resistance df = Ok (support, resistance) ->
  leb support resistance = true.
Proof.
  intros Hlow Hhigh Hne Hlh Hsr.
  unfold _find_support_resistance in Hsr.
  rewrite Hhigh, Hlow in Hsr. cbn [bind] in Hsr. injection Hsr as <- <-.
  destruct (iloc_last_nonempty low Hne) as [l Hl].
  apply iloc_last_inv in Hl as [low' ->].
  rewrite tail_snoc in Hlh |- *.
  pose proof Hlh as Hlh'.
  apply Forall2_last_l in Hlh as (h & Hh & Hle).
  eapply leb_trans; [|eapply leb_trans; [exact Hle|]].
  - apply series_min_le; [apply in_or_app; right; now left|].
    now apply leb_not_nan_l in Hle.
  - apply series_max_ge; [exact Hh | now apply leb_not_nan_r in Hle].
Qed.

Lemma map_columns_fold (df : DataFrame) :
  map_columns df = fold_left map_column column_mapping df.
Proof. reflexivity. Qed.

Lemma map_column_data (df : DataFrame) (m : string * string) :
  data (map_column df m) = data df.
Proof.
  destruct m as [o n]. unfold map_column.
  destruct (contains (columns df) o); reflexivity.
Qed.

Lemma map_column_columns (df1 df2 : DataFrame) (m : string * string) :
  columns df1 = columns df2 ->
  columns (map_column df1 m) = columns (map_column df2 m).
Proof.
  destruct m as [o n]. unfold map_column. intros H. rewrite H.
  destruct (contains (columns df2) o); [|exact H].
  unfold rename. simpl. now rewrite H.
Qed.

Lemma map_column_length (df : DataFrame) (m : string * string) :
  List.length (columns (map_column df m)) = List.length (columns df).
Proof.
  destruct m as [o n]. unfold map_column, rename.
  destruct (contains (columns df) o); [apply length_map | reflexivity].
Qed.

Lemma fold_map_column_data (l : list (string * string)) (df : DataFrame) :
  data (fold_left map_column l df) = data df.
Proof.
  revert df. induction l as [|m l IH]; intros df; simpl; [reflexivity|].
  now rewrite IH, map_column_data.
Qed.

Lemma fold_map_column_columns (l : list (string * string))
  (df1 df2 : DataFrame) :
  columns df1 = columns df2 ->
  columns (fold_left map_column l df1) = columns (fold_left map_column l df2).
Proof.
  revert df1 df2. induction l as [|m l IH]; intros df1 df2 H; simpl;
    [exact H|]. apply IH. now apply map_column_columns.
Qed.

Lemma fold_map_column_length (l : list (string * string)) (df : DataFrame) :
  List.length (columns (fold_left map_column l df))
  = List.length (columns df).
Proof.
  revert df. induction l as [|m l IH]; intros df; simpl; [reflexivity|].
  now rewrite IH, map_column_length.
Qed.

Lemma normalize_data (df : DataFrame) : data (normalize df) = data df.
Proof.
  unfold normalize. rewrite map_columns_fold, fold_map_column_data.
  reflexivity.
Qed.

Lemma normalize_columns (df1 df2 : DataFrame) :
  columns df1 = columns df2 ->
  columns (normalize df1) = columns (normalize df2).
Proof.
  intros H. unfold normalize. rewrite !map_columns_fold.
  apply fold_map_column_columns. unfold standardize. simpl. now rewrite H.
Qed.

Lemma frame_eq (a b : DataFrame) :
  columns a = columns b -> data a = data b -> a = b.
Proof. destruct a, b. simpl. now intros -> ->. Qed.

Lemma filter_idem {A : Type} (p : A -> bool) (l : list A) :
  filter p (filter p l) = filter p l.
Proof.
  induction l as [|x l IH]; simpl; [reflexivity|].
  destruct (p x) eqn:E; simpl; [rewrite E; now f_equal | exact IH].
Qed.

(** The steps after normalization read the rows only through the valid
    ones. *)
Lemma analyze_valid_rows_only (lib : ta.library) (df0 df1 : DataFrame)
  (timeframe : string) :
  columns df1 = columns df0 -> data df1 = valid_rows df0 ->
  (if negb (has_required df1) then
     _generate_error_signal
       "Invalid CSV format. Required columns: Open, High, Low, Close"
   else
     match convert_required df1 with
     | Ok df2 =>
         if (len (dropna df2 required_cols) <? 20)%nat then
           _generate_error_signal
             "Insufficient data for analysis (minimum 20 candles required)"
         else
           match _calculate_indicators lib (dropna df2 required_cols)
                   timeframe with
           | Ok d => d
           | Raise e => _generate_error_signal ("CSV analysis failed: " ++ e)
           end
     | Raise e => _generate_error_signal ("CSV analysis failed: " ++ e)
     end)
  =
  (if negb (has_required df0) then
     _generate_error_signal
       "Invalid CSV format. Required columns: Open, High, Low, Close"
   else
     match convert_required df0 with
     | Ok df2 =>
         if (len (dropna df2 required_cols) <? 20)%nat then
           _generate_error_signal
             "Insufficient data for analysis (minimum 20 candles required)"
         else
           match _calculate_indicators lib (dropna df2 required_cols)
                   timeframe with
           | Ok d => d
           | Raise e => _generate_error_signal ("CSV analysis failed: " ++ e)
           end
     | Raise e => _generate_error_signal ("CSV analysis failed: " ++ e)
     end).
Proof.
  intros Hc Hd.
  assert (has_required df1 = has_required df0) as Hh
    by (unfold has_required; now rewrite Hc).
  assert (unique_required df1 = unique_required df0) as Hu
    by (unfold unique_required, positions; now rewrite Hc).
  rewrite Hh. destruct (has_required df0) eqn:Hhas; [|reflexivity].
  cbn [negb].
  destruct (unique_required df0) eqn:Huniq.
  - destruct (unique_required_inv _ Huniq) as (io & ih & il & ic & S0).
    destruct (unique_required_inv _ Hu) as (io' & ih' & il' & ic' & S1).
    assert (io' = io /\ ih' = ih /\ il' = il /\ ic' = ic) as (-> & -> & -> & ->).
    { destruct S0 as [A0 B0 C0 D0], S1 as [A1 B1 C1 D1].
      unfold positions in *. rewrite Hc in A1, B1, C1, D1.
      rewrite A0 in A1; rewrite B0 in B1; rewrite C0 in C1; rewrite D0 in D1.
      injection A1 as ->; injection B1 as ->; injection C1 as ->;
        injection D1 as ->. now repeat split. }
    rewrite (convert_required_single _ _ _ _ _ S0).
    rewrite (convert_required_single _ _ _ _ _ S1).
    fold (cleaned df0). fold (cleaned df1).
    assert (valid_rows df1 = valid_rows df0) as Hv.
    { unfold valid_rows at 1. rewrite Hd.
      replace (row_valid df1) with (row_valid df0).
      - apply filter_idem.
      - unfold row_valid, positions. now rewrite Hc. }
    assert (cleaned df1 = cleaned df0) as ->; [|reflexivity].
    apply frame_eq.
    + unfold cleaned, dropna. simpl. exact Hc.
    + rewrite (cleaned_data _ _ _ _ _ S0), (cleaned_data _ _ _ _ _ S1).
      now rewrite Hv.
  - rewrite (convert_required_repeated df0 Hhas Huniq).
    now rewrite (convert_required_repeated df1 Hh Hu).
Qed.

(** X6. The result for a table is the result for the same table without
    its invalid rows: rows with a missing or non-numeric required field have
    no influence on the signal, nor on which error is reported. *)
Theorem X6_invalid_rows_are_ignored (lib : ta.library) (df : DataFrame)
  (timeframe : string) :
  analyze_csv_data lib (Ok df) timeframe
  = analyze_csv_data lib
      (Ok {| columns := columns df; data := valid_rows (normalize df) |})
      timeframe.
Proof.
  rewrite !analyze_csv_data_read. cbv zeta. symmetry.
  apply analyze_valid_rows_only.
  - now apply normalize_columns.
  - now rewrite normalize_data.
Qed.

Lemma rename_removes (df : DataFrame) (old_col new_col : string) :
  old_col <> new_col ->
  contains (columns (rename df old_col new_col)) old_col = false.
Proof.
  intros N. unfold contains, rename. simpl.
  induction (columns df) as [|c cols IH]; simpl; [reflexivity|].
  rewrite IH, orb_false_r.
  destruct (String.eqb_spec c old_col) as [->|Nc].
  - now apply String.eqb_neq.
  - apply String.eqb_neq. congruence.
Qed.

Lemma rename_keeps_absent (df : DataFrame) (old_col new_col x : string) :
  x <> new_col -> contains (columns df) x = false ->
  contains (columns (rename df old_col new_col)) x = false.
Proof.
  intros N. unfold contains, rename. simpl.
  induction (columns df) as [|c cols IH]; simpl; [reflexivity|].
  intros H. apply orb_false_iff in H as [Hc Hr].
  rewrite (IH Hr), orb_false_r.
  destruct (String.eqb c old_col); [now apply String.eqb_neq | exact Hc].
Qed.

Lemma map_column_removes (df : DataFrame) (old_col new_col : string) :
  old_col <> new_col ->
  contains (columns (map_column df (old_col, new_col))) old_col = false.
Proof.
  intros N. unfold map_column.
  destruct (contains (columns df) old_col) eqn:E; [|exact E].
  now apply rename_removes.
Qed.

Lemma map_column_keeps_absent (df : DataFrame) (m : string * string)
  (x : string) :
  x <> snd m -> contains (columns df) x = false ->
  contains (columns (map_column df m)) x = false.
Proof.
  destruct m as [o n]. simpl. intros N H. unfold map_column.
  destruct (contains (columns df) o); [|exact H].
  now apply rename_keeps_absent.
Qed.

Lemma fold_keeps_absent (l : list (string * string)) (df : DataFrame)
  (x : string) :
  (forall m, In m l -> x <> snd m) ->
  contains (columns df) x = false ->
  contains (columns (fold_left map_column l df)) x = false.
Proof.
  revert df. induction l as [|m l IH]; intros df Hl H; simpl; [exact H|].
  apply IH.
  - intros m' Hm'. apply Hl. now right.
  - apply map_column_keeps_absent; [apply Hl; now left | exact H].
Qed.

Lemma targets_apart_neq (l : list (string * string)) (m m' : string * string) :
  targets_apart l = true -> In m l -> In m' l -> fst m <> snd m'.
Proof.
  unfold targets_apart. rewrite forallb_forall. intros H Hm Hm'.
  specialize (H m Hm). rewrite forallb_forall in H. specialize (H m' Hm').
  apply negb_true_iff in H. now apply String.eqb_neq.
Qed.

Lemma fold_removes_old (l : list (string * string)) :
  forall (k : list (string * string)) (df : DataFrame) (m : string * string),
  (forall a b, In a l -> In b k -> fst a <> snd b) ->
  incl l k -> In m l ->
  contains (columns (fold_left map_column l df)) (fst m) = false.
Proof.
  induction l as [|a l IH]; intros k df m Hlk Hincl Hm; [destruct Hm|].
  simpl. destruct Hm as [->|Hm].
  - apply fold_keeps_absent.
    + intros m' Hm'. apply Hlk; [now left | apply Hincl; now right].
    + destruct m as [o n]. apply map_column_removes.
      apply (Hlk (o, n) (o, n)); [now left | apply Hincl; now left].
  - apply (IH k); auto.
    + intros x y Hx Hy. apply Hlk; [now right | exact Hy].
    + intros x Hx. apply Hincl. now right.
Qed.

(** X7. Column normalization touches neither the rows nor the number of
    columns, and afterwards no column is called by a synonym of the mapping
    ([timestamp], [datetime], [date], [o], [h], [l], [c], [v]). *)
Theorem X7_normalize_leaves_no_synonym (df : DataFrame) :
  data (normalize df) = data df /\
  List.length (columns (normalize df)) = List.length (columns df) /\
  forall old_col new_col : string,
    In (old_col, new_col) column_mapping ->
    contains (columns (normalize df)) old_col = false.
Proof.
  split; [apply normalize_data|]. split.
  - unfold normalize. rewrite map_columns_fold, fold_map_column_length.
    unfold standardize. simpl. apply length_map.
  - intros o n Hin. unfold normalize. rewrite map_columns_fold.
    assert (targets_apart column_mapping = true) as T by reflexivity.
    apply (fold_removes_old column_mapping column_mapping _ (o, n)).
    + intros a b Ha Hb. now apply (targets_apart_neq column_mapping).
    + apply incl_refl.
    + exact Hin.
Qed.




(** ** Levels of an image signal *)

(** The nearest integer is within a half. *)
Lemma round_half_even_near (q : Q) :
  (q - (1 # 2) <= inject_Z (round_half_even q) <= q + (1 # 2))%Q.
Proof.
  unfold round_half_even.
  pose proof (Qfloor_le q) as Hl. pose proof (Qlt_floor q) as Hu.
  rewrite inject_Z_plus in Hu. change (inject_Z 1) with 1%Q in Hu.
  destruct (Qcompare_spec (q - inject_Z (Qfloor q)) (1 # 2)) as [E|L|G].
  - destruct (Z.even (Qfloor q)); rewrite ?inject_Z_plus;
      change (inject_Z 1) with 1%Q; split; lra.
  - split; lra.
  - rewrite inject_Z_plus. change (inject_Z 1) with 1%Q. split; lra.
Qed.

(** Values more than a cent apart stay apart when rounded to cents. *)
Lemma round2_lt (a b : Q) :
  (a + (1 # 100) < b)%Q -> ltb (round (Fin a) 2) (round (Fin b) 2) = true.
Proof.
  intros H. unfold round. apply ltb_Fin. rewrite !Qred_correct.
  change (Z.to_pos (10 ^ Z.of_nat 2)) with 100%positive.
  pose proof (round_half_even_near (a * inject_Z 100)) as [_ Ha].
  pose proof (round_half_even_near (b * inject_Z 100)) as [Hb _].
  set (ra := round_half_even (a * inject_Z 100)) in *.
  set (rb := round_half_even (b * inject_Z 100)) in *.
  assert (inject_Z ra < inject_Z rb)%Q as Hlt.
  { change (inject_Z 100) with 100%Q in *. lra. }
  rewrite <- Zlt_Qlt in Hlt. unfold Qlt. simpl. lia.
Qed.


(** X9. For a base price between 1800 and 2100, the range of the random
    draw, the returned entry of an image signal lies in that range, a BUY
    has [stop_loss < entry < take_profit] and a SELL
    [take_profit < entry < stop_loss] in the returned, rounded prices, and a
    HOLD has the three equal. *)
Theorem X9_image_levels_ordered (patterns : Patterns) (timeframe : string)
  (base_price : float) :
  let d := _generate_image_based_signal patterns timeframe base_price in
  leb 1800%Q base_price = true -> leb base_price 2100%Q = true ->
  (leb 1800%Q (price d "entry") = true /\
   leb (price d "entry") 2100%Q = true) /\
  (get d "action" = Some (VStr "BUY") ->
     ltb (price d "stop_loss") (price d "entry") = true /\
     ltb (price d "entry") (price d "take_profit") = true) /\
  (get d "action" = Some (VStr "SELL") ->
     ltb (price d "take_profit") (price d "entry") = true /\
     ltb (price d "entry") (price d "stop_loss") = true) /\
  (get d "action" = Some (VStr "HOLD") ->
     price d "take_profit" = price d "entry" /\
     price d "stop_loss" = price d "entry").
Proof.
  intros d Hlo Hhi. unfold d, price. rewrite image_signal_unfold. cbv zeta.
  cbn [get String.eqb Ascii.eqb Bool.eqb].
  destruct base_price as [| |b|]; try discriminate.
  unfold f_ in Hlo, Hhi. pose proof Hlo as Hlo'. pose proof Hhi as Hhi'.
  apply leb_Fin in Hlo', Hhi'.
  split.
  { split.
    - destruct (fst (image_action patterns)); simpl fst;
        apply (round_mono (Fin 1800) (Fin b) 2 Hlo).
    - destruct (fst (image_action patterns)); simpl fst;
        apply (round_mono (Fin b) (Fin 2100) 2 Hhi). }
  destruct (fst (image_action patterns)); cbn [Action_str image_levels fst snd];
    (split; [|split]); intros H; try discriminate H.
  - unfold Float.mul, f_. split; apply round2_lt; lra.
  - unfold Float.mul, f_. split; apply round2_lt; lra.
  - now split.
Qed.

(** ** The risk calculators *)

Lemma is_zero_abs (x : float) : is_zero (abs x) = is_zero x.
Proof.
  destruct x as [| |q|]; try reflexivity. simpl.
  destruct (Qeq_bool q 0) eqn:E.
  - apply Qeq_bool_iff in E. apply Qeq_bool_iff. rewrite E. reflexivity.
  - apply Qeq_bool_neq in E. destruct (Qeq_bool (Qabs q) 0) eqn:E'; [|reflexivity].
    apply Qeq_bool_iff in E'. exfalso. apply E. revert E'.
    apply (Qabs_case q (fun y => y == 0 -> q == 0)%Q); intros; lra.
Qed.

Lemma percent_fraction (risk_pct : float) :
  truediv risk_pct 100%Q = Ok (risk_pct / 100%Q)%float.
Proof. reflexivity. Qed.

(** The handler after validation. *)
Lemma risk_calculator_cases (account_size stop_loss risk_pct : float) :
  main.risk_calculator account_size stop_loss risk_pct =
  if leb account_size 0%Q || leb risk_pct 0%Q || gtb risk_pct 100%Q then
    HTTPException 400 (VStr "Invalid input values")
  else if is_zero stop_loss then Escapes "float division by zero"
  else
    let risk_amount := (account_size * (risk_pct / 100%Q))%float in
    let position_size := (risk_amount / abs stop_loss)%float in
    Returns
      [ ("account_size", VFloat account_size);
        ("risk_percentage", VFloat risk_pct);
        ("risk_amount", VFloat (round risk_amount 2));
        ("stop_loss", VFloat stop_loss);
        ("position_size", VFloat (round position_size 4));
        ("max_loss", VFloat (round risk_amount 2));
        ("potential_profit", VFloat (round (risk_amount * 2%Q) 2));
        ("reward_risk_ratio", VFloat 2%Q);
        ("recommendations",
          VDict [ ("conservative", VFloat (round (position_size * 0.5%Q) 4));
                  ("normal", VFloat (round position_size 4));
                  ("aggressive", VFloat (round (position_size * 1.5%Q) 4)) ])
      ]%string.
Proof.
  unfold main.risk_calculator.
  destruct (leb account_size 0%Q || leb risk_pct 0%Q || gtb risk_pct 100%Q);
    [reflexivity|].
  rewrite percent_fraction. cbn [try_]. unfold truediv.
  rewrite is_zero_abs. destruct (is_zero stop_loss); reflexivity.
Qed.

(** X10. The risk calculator lets a ZeroDivisionError escape exactly when
    the account size and the risk percentage pass validation and the stop
    loss is zero: the validation does not look at the stop loss. *)
Theorem X10_zero_stop_loss_escapes (account_size stop_loss risk_pct : float) :
  (exists e, main.risk_calculator account_size stop_loss risk_pct = Escapes e)
  <->
  (leb account_size 0%Q = false /\ leb risk_pct 0%Q = false /\
   gtb risk_pct 100%Q = false /\ is_zero stop_loss = true).
Proof.
  rewrite risk_calculator_cases.
  destruct (leb account_size 0%Q), (leb risk_pct 0%Q), (gtb risk_pct 100%Q),
    (is_zero stop_loss); cbn [orb];
    split;
    try (intros [e H]; discriminate H);
    try (intros (A & B & C & D); discriminate);
    try (intros _; now repeat split);
    try (intros _; eexists; reflexivity).
Qed.

Lemma abs_opp (x : float) : abs (opp x) = abs x.
Proof.
  destruct x as [| |[n d]|]; try reflexivity.
  simpl. unfold Qabs, Qopp. simpl. now rewrite Z.abs_opp.
Qed.

Lemma is_zero_opp (x : float) : is_zero (opp x) = is_zero x.
Proof. now rewrite <- is_zero_abs, abs_opp, is_zero_abs. Qed.

Lemma div_Fin (a b : Q) :
  ~ (b == 0)%Q -> (Fin a / Fin b)%float = Fin (a / b).
Proof.
  intros H. unfold Float.div.
  destruct (Qeq_bool b 0) eqn:E; [|reflexivity].
  apply Qeq_bool_iff in E. contradiction.
Qed.

Lemma is_zero_Fin (q : Q) : is_zero (Fin q) = false <-> ~ (q == 0)%Q.
Proof.
  simpl. split.
  - intros E. now apply Qeq_bool_neq.
  - intros N. destruct (Qeq_bool q 0) eqn:E; [|reflexivity].
    apply Qeq_bool_iff in E. contradiction.
Qed.

(** X11. For finite inputs that pass validation, with a stop loss other
    than zero, the risk calculator returns; the position size is not
    negative, the risk amount is at most the account size rounded, the
    maximal loss is the risk amount and at most the potential profit, and
    the recommended sizes are ordered conservative <= normal <= aggressive,
    the normal one being the position size. *)
Theorem X11_risk_sizes_ordered (a s r : Q) :
  leb (Fin a) 0%Q || leb (Fin r) 0%Q || gtb (Fin r) 100%Q = false ->
  is_zero (Fin s) = false ->
  exists d : dict,
    main.risk_calculator (Fin a) (Fin s) (Fin r) = Returns d /\
    leb 0%Q (price d "position_size") = true /\
    leb (price d "risk_amount") (round (Fin a) 2) = true /\
    price d "max_loss" = price d "risk_amount" /\
    leb (price d "max_loss") (price d "potential_profit") = true /\
    recommendation d "normal" = price d "position_size" /\
    leb (recommendation d "conservative") (recommendation d "normal") = true /\
    leb (recommendation d "normal") (recommendation d "aggressive") = true.
Proof.
  intros Hv Hs. rewrite risk_calculator_cases, Hv, Hs. cbv zeta.
  eexists. split; [reflexivity|].
  apply orb_false_iff in Hv as [Hv Hr100].
  apply orb_false_iff in Hv as [Ha Hr0].
  apply not_true_iff_false in Ha, Hr0, Hr100.
  unfold f_ in *. rewrite leb_Fin in Ha, Hr0. unfold gtb in Hr100.
  rewrite ltb_Fin in Hr100.
  apply is_zero_Fin in Hs.
  assert (0 < Qabs s)%Q as Hs'.
  { apply (Qabs_case s (fun y => 0 < y)%Q); intros; lra. }
  assert (0 < r / 100 /\ r / 100 <= 1)%Q as [Hf0 Hf1].
  { split; [apply Qlt_shift_div_l | apply Qle_shift_div_r]; lra. }
  unfold price, recommendation. cbn [get String.eqb Ascii.eqb Bool.eqb].
  unfold Float.mul, abs, f_.
  rewrite (div_Fin r 100) by lra.
  rewrite (div_Fin _ (Qabs s)) by lra.
  set (f := (r / 100)%Q) in *.
  assert (0 <= a * f /\ a * f <= a)%Q as [Hra0 Hra1] by (split; nra).
  assert (0 <= a * f / Qabs s)%Q as Hp.
  { apply Qle_shift_div_l; [exact Hs'|]. lra. }
  set (ra := (a * f)%Q) in *. set (p := (ra / Qabs s)%Q) in *.
  split; [apply (round_mono (Fin 0) _ 4); apply leb_Fin; exact Hp|].
  split; [apply round_mono, leb_Fin; lra|].
  split; [reflexivity|].
  split; [apply round_mono, leb_Fin; lra|].
  split; [reflexivity|].
  split; apply round_mono, leb_Fin; lra.
Qed.

(** X12. The sign of the stop loss does not matter to the risk calculator:
    negating it changes the echoed [stop_loss] field and nothing else, be it
    a returned field, the 400 answer or the escaping exception. *)
Theorem X12_stop_loss_sign_is_ignored (account_size stop_loss risk_pct : float) :
  match main.risk_calculator account_size stop_loss risk_pct,
        main.risk_calculator account_size (opp stop_loss) risk_pct with
  | Returns d, Returns d' =>
      get d "stop_loss" = Some (VFloat stop_loss) /\
      get d' "stop_loss" = Some (VFloat (opp stop_loss)) /\
      forall k : string, k <> "stop_loss"%string -> get d' k = get d k
  | HTTPException c m, HTTPException c' m' => c = c' /\ m = m'
  | Escapes e, Escapes e' => e = e'
  | _, _ => False
  end.
Proof.
  rewrite !risk_calculator_cases, is_zero_opp, abs_opp.
  destruct (leb account_size 0%Q || leb risk_pct 0%Q || gtb risk_pct 100%Q);
    [now split|].
  destruct (is_zero stop_loss); [reflexivity|].
  cbv zeta. split; [reflexivity|]. split; [reflexivity|].
  intros k Hk. apply String.eqb_neq in Hk.
  cbn [get]. rewrite Hk. reflexivity.
Qed.

(** X13. The two risk handlers agree: [main_simple.risk] answers 400 or
    lets the division error escape exactly when [main.risk_calculator]
    does, and every field it returns is a field of the other's answer, with
    the same value. *)
Theorem X13_risk_handlers_agree (account_size stop_loss risk_pct : float) :
  match main_simple.risk account_size stop_loss risk_pct,
        main.risk_calculator account_size stop_loss risk_pct with
  | Returns d1, Returns d2 =>
      forall (k : string) (v : value), get d1 k = Some v -> get d2 k = Some v
  | HTTPException c m, HTTPException c' m' => c = c' /\ m = m'
  | Escapes e, Escapes e' => e = e'
  | _, _ => False
  end.
Proof.
  rewrite risk_calculator_cases. unfold main_simple.risk.
  destruct (leb account_size 0%Q || leb risk_pct 0%Q || gtb risk_pct 100%Q);
    [now split|].
  rewrite percent_fraction. cbn [try_]. unfold truediv.
  rewrite is_zero_abs. destruct (is_zero stop_loss); [reflexivity|].
  cbn [try_]. cbv zeta. intros k v. cbn [get].
  repeat match goal with
         | |- context [String.eqb k ?s] => destruct (String.eqb k s)
         end; try (intros H; exact H); discriminate.
Qed.

(** X14. [calculate_position_size] validates nothing: it raises exactly
    when the stop loss is zero, it ignores the sign of the stop loss, and
    whenever the risk calculator returns it returns the same position size,
    rounded to 2 decimals instead of 4. *)
Theorem X14_position_size_without_validation
  (account_size stop_loss risk_pct : float) :
  ((exists e, risk.calculate_position_size account_size stop_loss risk_pct
              = Raise e) <-> is_zero stop_loss = true) /\
  risk.calculate_position_size account_size (opp stop_loss) risk_pct
  = risk.calculate_position_size account_size stop_loss risk_pct /\
  (forall d : dict,
     main.risk_calculator account_size stop_loss risk_pct = Returns d ->
     exists position_size : float,
       risk.calculate_position_size account_size stop_loss risk_pct
       = Ok (round position_size 2) /\
       get d "position_size" = Some (VFloat (round position_size 4))).
Proof.
  unfold risk.calculate_position_size.
  rewrite !percent_fraction. cbn [bind]. unfold truediv.
  rewrite abs_opp, !is_zero_abs.
  split; [|split].
  - destruct (is_zero stop_loss); cbn [bind]; split.
    + reflexivity.
    + intros _. eexists. reflexivity.
    + intros [e H]. discriminate H.
    + discriminate.
  - reflexivity.
  - intros d. rewrite risk_calculator_cases.
    destruct (leb account_size 0%Q || leb risk_pct 0%Q || gtb risk_pct 100%Q);
      [discriminate|].
    destruct (is_zero stop_loss); [discriminate|].
    cbv zeta. intros [= <-]. cbn [bind]. eexists. split; reflexivity.
Qed.

(* ================================================================== *)
(** ** The upload handler [main.analyze] *)

Section AnalyzeFacts.

Variable lib : ta.library.
Variable image : Type.
Variable hough_lines : image -> option (list line).
Variable arctan2_degrees : Z -> Z -> float.
Variable str : value -> string.
Variable save_signal : string -> dict -> string -> bool.

Local Abbreviation respond := (main.respond str save_signal).
Local Abbreviation analysis :=
  (main.analysis lib image hough_lines arctan2_degrees).
Local Abbreviation analyze :=
  (main.analyze lib image hough_lines arctan2_degrees str save_signal).

(** An error signal is answered by a 400 that carries its message. *)
Lemma respond_error (msg name timeframe user_id : string) :
  respond (_generate_error_signal msg) name timeframe user_id
  = HTTPException 400 (VStr msg).
Proof. reflexivity. Qed.

(** Any other analysis result is returned in a body. *)
Lemma respond_indicator_signal (i : Inputs) (name timeframe user_id : string) :
  exists chart caption saved_,
    respond (_generate_signal_from_indicators i timeframe) name timeframe
      user_id
    = Returns
        [ ("signal", VDict (_generate_signal_from_indicators i timeframe));
          ("annotated_chart", VStr chart);
          ("caption", VStr caption);
          ("file_processed", VStr name);
          ("saved_to_history", VBool saved_) ]%string.
Proof.
  unfold respond, main.respond, main.caption_of, item.
  rewrite signal_unfold. cbn -[percent Action_str round].
  do 3 eexists. reflexivity.
Qed.

Lemma respond_image_signal (p : Patterns) (base_price : float)
  (name timeframe user_id : string) :
  exists chart caption saved_,
    respond (_generate_image_based_signal p timeframe base_price) name
      timeframe user_id
    = Returns
        [ ("signal",
            VDict (_generate_image_based_signal p timeframe base_price));
          ("annotated_chart", VStr chart);
          ("caption", VStr caption);
          ("file_processed", VStr name);
          ("saved_to_history", VBool saved_) ]%string.
Proof.
  unfold respond, main.respond, main.caption_of, item.
  rewrite image_signal_unfold. cbn -[percent Action_str round image_levels image_action].
  do 3 eexists. reflexivity.
Qed.

(** What the analysis by extension can be. *)
Lemma analysis_shape (file : Upload image) (ext timeframe : string)
  (base_price : float) :
  (exists msg, analysis file ext timeframe base_price
               = _generate_error_signal msg) \/
  (exists i, ext = "csv"%string /\
             analysis file ext timeframe base_price
             = _generate_signal_from_indicators i timeframe) \/
  (exists p, ext <> "csv"%string /\
             analysis file ext timeframe base_price
             = _generate_image_based_signal p timeframe base_price).
Proof.
  unfold analysis, main.analysis.
  destruct (String.eqb_spec ext "csv") as [E|N].
  - destruct (analyze_csv_data_shape lib (csv file) timeframe)
      as [[msg H]|[i H]].
    + left. now exists msg.
    + right. left. now exists i.
  - unfold analyze_chart_image. destruct (picture file) as [img|].
    + right. right. eexists. split; [exact N | reflexivity].
    + left. eexists. reflexivity.
Qed.

(** The answer to a request that passes the checks and is stored. *)
Lemma analyze_checked (file : Upload image) (name timeframe user_id : string)
  (base_price : float) (u : unit) :
  filename file = Some name -> name <> ""%string ->
  contains main.allowed_extensions (lower (last_component name)) = true ->
  contains main.valid_timeframes timeframe = true ->
  saved file = Ok u ->
  let r := analysis file (lower (last_component name)) timeframe base_price in
  analyze file timeframe user_id base_price
  = respond r name timeframe user_id /\
  forall e, respond r name timeframe user_id <> Escapes e.
Proof.
  intros Hn Hne Hext Htf Hsaved r.
  assert (forall e, respond r name timeframe user_id <> Escapes e) as Hesc.
  { intros e. unfold r.
    destruct (analysis_shape file (lower (last_component name)) timeframe
                base_price) as [[msg ->]|[[i [_ ->]]|[p [_ ->]]]].
    - rewrite respond_error. discriminate.
    - destruct (respond_indicator_signal i name timeframe user_id)
        as (c & k & b & ->). discriminate.
    - destruct (respond_image_signal p base_price name timeframe user_id)
        as (c & k & b & ->). discriminate. }
  split; [|exact Hesc].
  unfold analyze, main.analyze, main.analyze_body. rewrite Hn.
  apply String.eqb_neq in Hne. rewrite Hne, Hext, Htf, Hsaved.
  cbn [negb try_]. fold analysis. fold r. fold respond.
  destruct (respond r name timeframe user_id) eqn:E; try reflexivity.
  now elim (Hesc e).
Qed.

(** X15. A body returned by the upload handler has passed every check: the
    file has a name with an allowed extension, the timeframe is a valid one,
    the body names the file and carries a signal that is no error signal,
    has no [error] key, echoes the timeframe, and comes from the indicator
    path for a [csv] extension and from the image path otherwise. *)
Theorem X15_returned_body_is_checked (file : Upload image)
  (timeframe user_id : string) (base_price : float) (body : dict) :
  analyze file timeframe user_id base_price = Returns body ->
  exists (name : string) (signal : dict),
    filename file = Some name /\
    contains main.allowed_extensions (lower (last_component name)) = true /\
    contains main.valid_timeframes timeframe = true /\
    get body "file_processed" = Some (VStr name) /\
    get body "signal" = Some (VDict signal) /\
    ~ is_error_signal signal /\
    get signal "error" = None /\
    get signal "timeframe" = Some (VStr timeframe) /\
    get signal "analysis_type"
      = Some (VStr (if String.eqb (lower (last_component name)) "csv"
                    then "technical_indicators" else "chart_pattern")).
Proof.
  intros H.
  destruct (filename file) as [name|] eqn:Hn;
    [|unfold analyze, main.analyze, main.analyze_body in H;
      rewrite Hn in H; discriminate H].
  destruct (String.eqb_spec name "") as [E|Hne];
    [unfold analyze, main.analyze, main.analyze_body in H;
     rewrite Hn, E in H; discriminate H|].
  destruct (contains main.allowed_extensions (lower (last_component name)))
    eqn:Hext;
    [|unfold analyze, main.analyze, main.analyze_body in H;
      rewrite Hn, (proj2 (String.eqb_neq _ _) Hne), Hext in H;
      discriminate H].
  destruct (contains main.valid_timeframes timeframe) eqn:Htf;
    [|unfold analyze, main.analyze, main.analyze_body in H;
      rewrite Hn, (proj2 (String.eqb_neq _ _) Hne), Hext, Htf in H;
      discriminate H].
  destruct (saved file) as [u|e] eqn:Hs;
    [|unfold analyze, main.analyze, main.analyze_body in H;
      rewrite Hn, (proj2 (String.eqb_neq _ _) Hne), Hext, Htf, Hs in H;
      discriminate H].
  destruct (analyze_checked file name timeframe user_id base_price u
              Hn Hne Hext Htf Hs) as [Ha _].
  rewrite Ha in H. clear Ha.
  exists name.
  destruct (analysis_shape file (lower (last_component name)) timeframe
              base_price) as [[msg E]|[[i [Ec E]]|[p [Ec E]]]];
    rewrite E in H.
  - rewrite respond_error in H. discriminate H.
  - destruct (respond_indicator_signal i name timeframe user_id)
      as (c & k & b & R). rewrite R in H. injection H as <-.
    exists (_generate_signal_from_indicators i timeframe).
    unfold is_error_signal. rewrite signal_unfold.
    repeat split; try reflexivity; try assumption.
    + intro Herr. discriminate Herr.
    + now rewrite Ec.
  - destruct (respond_image_signal p base_price name timeframe user_id)
      as (c & k & b & R). rewrite R in H. injection H as <-.
    exists (_generate_image_based_signal p timeframe base_price).
    apply String.eqb_neq in Ec. rewrite Ec.
    unfold is_error_signal. rewrite image_signal_unfold. cbv zeta.
    repeat split; try reflexivity; try assumption.
    intro Herr. discriminate Herr.
Qed.

(** A request that passes the checks and cannot be stored. *)
Lemma analyze_not_stored (file : Upload image)
  (name timeframe user_id e : string) (base_price : float) :
  filename file = Some name -> name <> ""%string ->
  contains main.allowed_extensions (lower (last_component name)) = true ->
  contains main.valid_timeframes timeframe = true ->
  saved file = Raise e ->
  analyze file timeframe user_id base_price
  = HTTPException 500 (VStr ("Analysis failed: " ++ e)).
Proof.
  intros Hn Hne Hext Htf Hs.
  unfold analyze, main.analyze, main.analyze_body.
  now rewrite Hn, (proj2 (String.eqb_neq _ _) Hne), Hext, Htf, Hs.
Qed.

(** X16. The upload handler lets no exception escape, and it answers 500
    only when writing the upload failed, with that failure in the detail:
    the analyzers turn their own exceptions into error signals, and the
    keys the handler reads are always present.  Conversely a failed write,
    after the name and timeframe checks, is answered by that 500. *)
Theorem X16_only_a_failed_upload_gives_500 (file : Upload image)
  (timeframe user_id : string) (base_price : float) :
  (forall e, analyze file timeframe user_id base_price <> Escapes e) /\
  (forall detail,
     analyze file timeframe user_id base_price = HTTPException 500 detail ->
     exists e, saved file = Raise e /\
               detail = VStr ("Analysis failed: " ++ e)) /\
  (forall name e,
     filename file = Some name -> name <> ""%string ->
     contains main.allowed_extensions (lower (last_component name)) = true ->
     contains main.valid_timeframes timeframe = true ->
     saved file = Raise e ->
     analyze file timeframe user_id base_price
     = HTTPException 500 (VStr ("Analysis failed: " ++ e))).
Proof.
  assert (forall r : response dict,
            analyze file timeframe user_id base_price = r ->
            (forall e, r <> Escapes e) /\
            (forall detail, r = HTTPException 500 detail ->
               exists e, saved file = Raise e /\
                         detail = VStr ("Analysis failed: " ++ e))) as Hall.
  { intros r Hr.
    destruct (filename file) as [name|] eqn:Hn;
      [|unfold analyze, main.analyze, main.analyze_body in Hr;
        rewrite Hn in Hr; subst r; split; intros; discriminate].
    destruct (String.eqb_spec name "") as [E|Hne];
      [unfold analyze, main.analyze, main.analyze_body in Hr;
       rewrite Hn, E in Hr; subst r; split; intros; discriminate|].
    destruct (contains main.allowed_extensions (lower (last_component name)))
      eqn:Hext;
      [|unfold analyze, main.analyze, main.analyze_body in Hr;
        rewrite Hn, (proj2 (String.eqb_neq _ _) Hne), Hext in Hr;
        subst r; split; intros; discriminate].
    destruct (contains main.valid_timeframes timeframe) eqn:Htf;
      [|unfold analyze, main.analyze, main.analyze_body in Hr;
        rewrite Hn, (proj2 (String.eqb_neq _ _) Hne), Hext, Htf in Hr;
        subst r; split; intros; discriminate].
    destruct (saved file) as [u|e] eqn:Hs.
    - destruct (analyze_checked file name timeframe user_id base_price u
                  Hn Hne Hext Htf Hs) as [Ha Hesc].
      rewrite Ha in Hr. subst r. split; [exact Hesc|].
      intros detail H.
      destruct (analysis_shape file (lower (last_component name)) timeframe
                  base_price) as [[msg E]|[[i [Ec E]]|[p [Ec E]]]];
        rewrite E in H.
      + rewrite respond_error in H. discriminate H.
      + destruct (respond_indicator_signal i name timeframe user_id)
          as (c & k & b & R). rewrite R in H. discriminate H.
      + destruct (respond_image_signal p base_price name timeframe user_id)
          as (c & k & b & R). rewrite R in H. discriminate H.
    - rewrite (analyze_not_stored file name timeframe user_id e base_price
                 Hn Hne Hext Htf Hs) in Hr. subst r.
      split; [intros; discriminate|].
      intros detail [= <-]. now exists e. }
  destruct (Hall _ eq_refl) as [H1 H2].
  split; [exact H1|]. split; [exact H2|].
  intros name e. apply analyze_not_stored.
Qed.

(** X17. When the checks pass and the upload is written, an error signal
    of the analyzer is answered by a 400 whose detail is the signal's
    message; nothing is returned. *)
Theorem X17_analyzer_error_becomes_400 (file : Upload image)
  (name timeframe user_id : string) (base_price : float) (u : unit) :
  filename file = Some name -> name <> ""%string ->
  contains main.allowed_extensions (lower (last_component name)) = true ->
  contains main.valid_timeframes timeframe = true ->
  saved file = Ok u ->
  is_error_signal
    (analysis file (lower (last_component name)) timeframe base_price) ->
  exists msg : string,
    get (analysis file (lower (last_component name)) timeframe base_price)
      "message" = Some (VStr msg) /\
    analyze file timeframe user_id base_price
    = HTTPException 400 (VStr msg).
Proof.
  intros Hn Hne Hext Htf Hs Herr.
  destruct (analyze_checked file name timeframe user_id base_price u
              Hn Hne Hext Htf Hs) as [Ha _].
  rewrite Ha. clear Ha. revert Herr. unfold is_error_signal.
  destruct (analysis_shape file (lower (last_component name)) timeframe
              base_price) as [[msg E]|[[i [Ec E]]|[p [Ec E]]]];
    rewrite E.
  - intros _. exists msg. split; [reflexivity | apply respond_error].
  - rewrite signal_unfold. discriminate.
  - rewrite image_signal_unfold. cbv zeta. discriminate.
Qed.

End AnalyzeFacts.

(* ================================================================== *)
(** ** The Firebase service *)

Lemma get_set_item_same (d : dict) (k : string) (v : value) :
  get (set_item d k v) k = Some v.
Proof.
  induction d as [|[k' v'] d IH]; simpl.
  - now rewrite String.eqb_refl.
  - destruct (String.eqb k k') eqn:E; simpl; rewrite E; [reflexivity|exact IH].
Qed.

Lemma get_set_item_other (d : dict) (k k0 : string) (v : value) :
  k0 <> k -> get (set_item d k v) k0 = get d k0.
Proof.
  intros N. induction d as [|[k' v'] d IH]; simpl.
  - now rewrite (proj2 (String.eqb_neq _ _) N).
  - destruct (String.eqb_spec k k') as [<-|N'].
    + simpl. now rewrite (proj2 (String.eqb_neq _ _) N).
    + simpl. destruct (String.eqb k0 k'); [reflexivity | exact IH].
Qed.

Lemma wins_and_losses (signals : list dict) (wins losses : Z) :
  firebase_service.count_outcome "WIN" signals = Ok wins ->
  firebase_service.count_outcome "LOSS" signals = Ok losses ->
  (0 <= wins)%Z /\ (0 <= losses)%Z /\
  (wins + losses <= Z.of_nat (List.length signals))%Z.
Proof.
  revert wins losses. induction signals as [|s rest IH]; intros w l.
  - simpl. intros [= <-] [= <-]. lia.
  - cbn [firebase_service.count_outcome List.length].
    rewrite Nat2Z.inj_succ.
    destruct (firebase_service.signal_field s "outcome") as [o|e];
      [|discriminate].
    cbn [bind].
    destruct (firebase_service.count_outcome "WIN" rest) as [w'|];
      [|discriminate].
    destruct (firebase_service.count_outcome "LOSS" rest) as [l'|];
      [|discriminate].
    cbn [bind]. intros [= <-] [= <-].
    destruct (IH w' l' eq_refl eq_refl) as (Hw & Hl & Hs).
    destruct o as [[b|n|x|t|d]|]; cbn [is_str]; try lia.
    destruct (String.eqb_spec t "WIN") as [->|Nw].
    + change (String.eqb "WIN" "LOSS") with false. lia.
    + destruct (String.eqb t "LOSS"); lia.
Qed.

Lemma win_rate_bounds (wins total : Z) :
  (0 <= wins <= total)%Z -> (0 < total)%Z ->
  leb 0%Q (round (of_Z wins / of_Z total * 100%Q)%float 1) = true /\
  leb (round (of_Z wins / of_Z total * 100%Q)%float 1) 100%Q = true.
Proof.
  intros Hw Ht. unfold of_Z.
  assert (Hpos : (0 < inject_Z total)%Q)
    by (change 0%Q with (inject_Z 0); now rewrite <- Zlt_Qlt).
  assert (Hw0 : (0 <= inject_Z wins)%Q)
    by (change 0%Q with (inject_Z 0); rewrite <- Zle_Qle; lia).
  assert (Hwt : (inject_Z wins <= inject_Z total)%Q)
    by (rewrite <- Zle_Qle; lia).
  rewrite div_Fin by (intros E; rewrite E in Hpos; now apply Qlt_irrefl in Hpos).
  change (Fin (inject_Z wins / inject_Z total) * 100%Q)%float
    with (Fin (inject_Z wins / inject_Z total * 100)).
  assert (H0 : (0 <= inject_Z wins / inject_Z total)%Q).
  { apply Qle_shift_div_l; [exact Hpos | lra]. }
  assert (H1 : (inject_Z wins / inject_Z total <= 1)%Q).
  { apply Qle_shift_div_r; [exact Hpos | lra]. }
  split.
  - change (f_ 0) with (round (Fin 0) 1). apply round_mono.
    apply leb_Fin. lra.
  - change (f_ 100) with (round (Fin 100) 1). apply round_mono.
    apply leb_Fin. lra.
Qed.

Section StatsFacts.

Variable float_of_str : string -> result float.

(** X18. Whatever the query returns, the statistics are consistent: wins
    and losses are not negative and together at most the number of signals,
    and the win rate lies between 0 and 100. *)
Theorem X18_statistics_are_consistent (initialized : bool)
    (stream : result (list (string * dict))) :
  let stats := firebase_service.get_user_stats float_of_str initialized stream in
  (0 <= int_field stats "wins")%Z /\
  (0 <= int_field stats "losses")%Z /\
  (int_field stats "wins" + int_field stats "losses"
     <= int_field stats "total_signals")%Z /\
  leb 0%Q (price stats "win_rate") = true /\
  leb (price stats "win_rate") 100%Q = true.
Proof.
  assert (Hmock :
    let stats := firebase_service._mock_user_stats in
    (0 <= int_field stats "wins")%Z /\
    (0 <= int_field stats "losses")%Z /\
    (int_field stats "wins" + int_field stats "losses"
       <= int_field stats "total_signals")%Z /\
    leb 0%Q (price stats "win_rate") = true /\
    leb (price stats "win_rate") 100%Q = true).
  { cbv zeta. vm_compute. repeat split; congruence. }
  unfold firebase_service.get_user_stats.
  destruct initialized; cbn [negb]; [|exact Hmock].
  cbv zeta.
  set (signals := firebase_service.get_user_signals true stream).
  destruct (firebase_service.count_outcome "WIN" signals) as [w|] eqn:Ew;
    [|exact Hmock].
  destruct (firebase_service.count_outcome "LOSS" signals) as [l|] eqn:El;
    [|exact Hmock].
  cbn [bind].
  destruct (firebase_service.pnl_terms float_of_str signals) as [terms|];
    [|exact Hmock].
  cbn [bind].
  destruct (wins_and_losses signals w l Ew El) as (Hw & Hl & Hs).
  unfold int_field, price. cbn [get String.eqb Ascii.eqb Bool.eqb].
  repeat split; try assumption.
  - destruct (Z.gtb_spec (Z.of_nat (List.length signals)) 0) as [Hp|Hp].
    + apply win_rate_bounds; lia.
    + reflexivity.
  - destruct (Z.gtb_spec (Z.of_nat (List.length signals)) 0) as [Hp|Hp].
    + apply win_rate_bounds; lia.
    + reflexivity.
Qed.

Lemma count_outcome_raises (outcome : string) (signals : list dict)
    (s : dict) (e : string) :
  In s signals -> firebase_service.signal_field s "outcome" = Raise e ->
  exists e', firebase_service.count_outcome outcome signals = Raise e'.
Proof.
  induction signals as [|s0 rest IH]; intros Hin Hs; [destruct Hin|].
  cbn [firebase_service.count_outcome].
  destruct Hin as [->|Hin].
  - rewrite Hs. now exists e.
  - destruct (firebase_service.signal_field s0 "outcome") as [o|e0];
      [|now exists e0].
    cbn [bind]. destruct (IH Hin Hs) as [e' ->]. now exists e'.
Qed.

Lemma pnl_terms_raises (signals : list dict) (s : dict) :
  In s signals ->
  (exists e, firebase_service.signal_field s "pnl" = Raise e) \/
  (exists p, firebase_service.signal_field s "pnl" = Ok (Some p) /\
     truthy (Some p) = true /\
     match p with
     | VStr text =>
         exists e,
           float_of_str (remove_char "%" (remove_char "+" text)) = Raise e
     | _ => True
     end) ->
  exists e', firebase_service.pnl_terms float_of_str signals = Raise e'.
Proof.
  induction signals as [|s0 rest IH]; intros Hin Hs; [destruct Hin|].
  cbn [firebase_service.pnl_terms].
  destruct Hin as [->|Hin].
  - destruct Hs as [[e ->]|(p & -> & Ht & Hp)]; [now exists e|].
    cbn [bind]. rewrite Ht.
    destruct p as [b|n|x|text|d]; try (eexists; reflexivity).
    destruct Hp as [e ->]. now exists e.
  - destruct (IH Hin Hs) as [e' He'].
    destruct (firebase_service.signal_field s0 "pnl") as [p|e0];
      [|now exists e0].
    cbn [bind]. destruct (truthy p).
    + destruct p as [[b|n|x|text|d]|]; try (eexists; reflexivity).
      destruct (float_of_str _) as [x|e0]; [|now exists e0].
      cbn [bind]. rewrite He'. now exists e'.
    + now exists e'.
Qed.

Lemma signal_field_other_key (d : dict) (id k : string) :
  firebase_service.signal_field (set_item d "id" (VStr id)) k =
  firebase_service.signal_field d k.
Proof.
  unfold firebase_service.signal_field.
  now rewrite get_set_item_other by discriminate.
Qed.

(** X19. One malformed document is enough to lose the whole computation:
    when the service is initialized and some document of the query has a
    [signal] that is not a map, or a truthy [pnl] that is no string, or a
    [pnl] string that [float] rejects, the statistics returned are the
    mock ones. *)
Theorem X19_malformed_document_gives_mock_statistics
    (docs : list (string * dict)) (id : string) (doc : dict) :
  In (id, doc) docs ->
  (exists v, get doc "signal" = Some v /\ forall m, v <> VDict m) \/
  (exists m p, get doc "signal" = Some (VDict m) /\ get m "pnl" = Some p /\
     truthy (Some p) = true /\
     match p with
     | VStr text =>
         exists e,
           float_of_str (remove_char "%" (remove_char "+" text)) = Raise e
     | _ => True
     end) ->
  firebase_service.get_user_stats float_of_str true (Ok docs) =
  firebase_service._mock_user_stats.
Proof.
  intros Hin Hbad.
  unfold firebase_service.get_user_stats. cbn [negb]. cbv zeta.
  set (signals := firebase_service.get_user_signals true (Ok docs)).
  assert (Hs : In (set_item doc "id" (VStr id)) signals).
  { unfold signals, firebase_service.get_user_signals. cbn [negb].
    apply in_map_iff. exists (id, doc). split; [reflexivity | exact Hin]. }
  destruct Hbad as [(v & Hv & Hnd)|(m & p & Hm & Hp & Ht & Hf)].
  - assert (Hr : exists e, firebase_service.signal_field
                   (set_item doc "id" (VStr id)) "outcome" = Raise e).
    { rewrite signal_field_other_key. unfold firebase_service.signal_field.
      rewrite Hv. destruct v; try (eexists; reflexivity).
      now destruct (Hnd d). }
    destruct Hr as [e Hr].
    destruct (count_outcome_raises "WIN" signals _ e Hs Hr) as [e' ->].
    reflexivity.
  - destruct (firebase_service.count_outcome "WIN" signals); [|reflexivity].
    destruct (firebase_service.count_outcome "LOSS" signals); [|reflexivity].
    cbn [bind].
    destruct (pnl_terms_raises signals _ Hs) as [e' ->]; [|reflexivity].
    right. exists p. rewrite signal_field_other_key.
    unfold firebase_service.signal_field. rewrite Hm, Hp. auto.
Qed.

End StatsFacts.

(** X20. With the service initialized and a query that succeeds, every
    document gives one signal, in the order of the query; the signal has the
    document's id under [id] and the document's own value under every other
    key.  A query that raises gives the empty list. *)
Theorem X20_signals_carry_document_ids (docs : list (string * dict))
    (e : string) :
  Forall2 (fun doc signal =>
             get signal "id" = Some (VStr (fst doc)) /\
             forall k, k <> "id"%string -> get signal k = get (snd doc) k)
          docs (firebase_service.get_user_signals true (Ok docs)) /\
  firebase_service.get_user_signals true (Raise e) = [].
Proof.
  split; [|reflexivity].
  unfold firebase_service.get_user_signals. cbn [negb].
  induction docs as [|[id d] rest IH]; constructor; [|exact IH].
  cbn [fst snd]. split.
  - apply get_set_item_same.
  - intros k Hk. now apply get_set_item_other.
Qed.

(* ================================================================== *)
(** ** The mock upload handler [main_simple.analyze] *)

Section SimpleFacts.

Variable choice : list string -> string.
Variable uniform : float -> float -> float.
Variable randint : Z -> Z -> Z.
Variable now : float.
Variable str_exception : Z -> value -> string.
Variable image : Type.

Local Abbreviation simple_body :=
  (main_simple.analyze_body choice uniform randint now image).
Local Abbreviation simple_analyze :=
  (main_simple.analyze choice uniform randint now str_exception image).

Lemma simple_analyze_returns (file : Upload image)
    (timeframe user_id : string) (body : dict) :
  simple_analyze file timeframe user_id = Returns body ->
  simple_body file timeframe user_id = Returns body.
Proof.
  unfold main_simple.analyze.
  destruct (simple_body file timeframe user_id); congruence.
Qed.

(** X21. The mock handler never answers 400 and lets nothing escape: its
    [except Exception] catches the 400s it raises itself, so every failure
    is a 500.  A file with an unsupported extension, answered 400 by
    [main.analyze], gets a 500 that wraps that exception. *)
Theorem X21_simple_handler_never_answers_400
    (lib : ta.library) (hough_lines : image -> option (list line))
    (arctan2_degrees : Z -> Z -> float) (str : value -> string)
    (save_signal : string -> dict -> string -> bool)
    (file : Upload image) (timeframe user_id : string) (base_price : float) :
  (forall e, simple_analyze file timeframe user_id <> Escapes e) /\
  (forall status_code detail,
     simple_analyze file timeframe user_id
     = HTTPException status_code detail -> status_code = 500%Z) /\
  (forall name,
     filename file = Some name -> name <> ""%string ->
     contains main.allowed_extensions (lower (last_component name)) = false ->
     main.analyze lib image hough_lines arctan2_degrees str save_signal
       file timeframe user_id base_price
     = HTTPException 400
         (VStr "Unsupported file type. Use JPG, PNG, or CSV.") /\
     simple_analyze file timeframe user_id
     = HTTPException 500
         (VStr ("Analysis failed: "
                ++ str_exception 400
                     (VStr "Unsupported file type. Use JPG, PNG, or CSV.")))).
Proof.
  split; [|split].
  - intros e. unfold main_simple.analyze.
    destruct (simple_body file timeframe user_id); discriminate.
  - intros c d. unfold main_simple.analyze.
    destruct (simple_body file timeframe user_id); congruence.
  - intros name Hn Hne Hext. apply String.eqb_neq in Hne.
    unfold main.analyze, main.analyze_body, main_simple.analyze,
      main_simple.analyze_body.
    rewrite Hn, Hne.
    change [ "jpg"; "jpeg"; "png"; "csv" ]%string
      with main.allowed_extensions.
    rewrite Hext. split; reflexivity.
Qed.

(** X22. The mock handler does not look at the timeframe: for a named file
    with an allowed extension that is written, it returns a body that names
    the file and whose signal echoes the timeframe, whatever it is; for a
    timeframe outside the list [main.analyze] answers 400. *)
Theorem X22_simple_handler_accepts_any_timeframe
    (lib : ta.library) (hough_lines : image -> option (list line))
    (arctan2_degrees : Z -> Z -> float) (str : value -> string)
    (save_signal : string -> dict -> string -> bool)
    (file : Upload image) (name timeframe user_id : string)
    (base_price : float) (u : unit) :
  filename file = Some name -> name <> ""%string ->
  contains main.allowed_extensions (lower (last_component name)) = true ->
  saved file = Ok u ->
  contains main.valid_timeframes timeframe = false ->
  (exists detail,
     main.analyze lib image hough_lines arctan2_degrees str save_signal
       file timeframe user_id base_price = HTTPException 400 detail) /\
  exists body signal : dict,
    simple_analyze file timeframe user_id = Returns body /\
    get body "file_processed" = Some (VStr name) /\
    get body "signal" = Some (VDict signal) /\
    get signal "timeframe" = Some (VStr timeframe).
Proof.
  intros Hn Hne Hext Hs Htf. apply String.eqb_neq in Hne.
  unfold main.analyze, main.analyze_body, main_simple.analyze,
    main_simple.analyze_body.
  rewrite Hn, Hne.
  change [ "jpg"; "jpeg"; "png"; "csv" ]%string with main.allowed_extensions.
  rewrite Hext, Htf, Hs. cbn [negb try_]. split.
  - eexists. reflexivity.
  - eexists. eexists. split; [reflexivity|]. repeat split.
Qed.

(** X23. When the draws respect their ranges and the choice is one of the
    actions offered, a body returned by the mock handler carries a BUY with
    [stop_loss <= entry <= take_profit] or a SELL with
    [take_profit <= entry <= stop_loss]; the entry lies between 1800 and
    2100. *)
Theorem X23_simple_signal_levels (file : Upload image)
    (timeframe user_id : string) (body : dict) :
  (forall lo hi : Q, (lo <= hi)%Q ->
     leb lo (uniform lo hi) = true /\ leb (uniform lo hi) hi = true) ->
  (forall actions : list string, actions <> [] -> In (choice actions) actions) ->
  simple_analyze file timeframe user_id = Returns body ->
  exists signal : dict,
    get body "signal" = Some (VDict signal) /\
    leb 1800%Q (price signal "entry") = true /\
    leb (price signal "entry") 2100%Q = true /\
    ((get signal "action" = Some (VStr "BUY") /\
      leb (price signal "stop_loss") (price signal "entry") = true /\
      leb (price signal "entry") (price signal "take_profit") = true) \/
     (get signal "action" = Some (VStr "SELL") /\
      leb (price signal "take_profit") (price signal "entry") = true /\
      leb (price signal "entry") (price signal "stop_loss") = true)).
Proof.
  intros Hu Hc Hr. apply simple_analyze_returns in Hr. revert Hr.
  unfold main_simple.analyze_body.
  destruct (filename file) as [name|]; [|discriminate].
  destruct (String.eqb name ""); [discriminate|].
  destruct (negb _); [discriminate|].
  destruct (saved file) as [u|e]; [|discriminate].
  cbn [try_]. cbv zeta. intros [= <-].
  eexists. split; [reflexivity|].
  destruct (Hu 1600 1800 ltac:(discriminate)) as [_ Hlow].
  destruct (Hu 1800 2100 ltac:(discriminate)) as [Hmid1 Hmid2].
  destruct (Hu 2100 2300 ltac:(discriminate)) as [Hhigh _].
  apply (round_mono _ _ 2) in Hlow, Hmid1, Hmid2, Hhigh.
  change (round 1800%Q 2) with (f_ 1800) in *.
  change (round 2100%Q 2) with (f_ 2100) in *.
  unfold price. cbn [get String.eqb Ascii.eqb Bool.eqb].
  split; [exact Hmid1|]. split; [exact Hmid2|].
  assert (Hin := Hc [ "BUY"; "SELL" ]%string ltac:(discriminate)).
  destruct Hin as [<-|[<-|[]]].
  - left. cbn [String.eqb Ascii.eqb Bool.eqb]. split; [reflexivity|]. split.
    + exact (leb_trans _ _ _ Hlow Hmid1).
    + exact (leb_trans _ _ _ Hmid2 Hhigh).
  - right. cbn [String.eqb Ascii.eqb Bool.eqb]. split; [reflexivity|]. split.
    + exact (leb_trans _ _ _ Hlow Hmid1).
    + exact (leb_trans _ _ _ Hmid2 Hhigh).
Qed.

End SimpleFacts.

(* ================================================================== *)
(** ** The path of an annotated chart *)

Lemma prefix_length (old s : string) :
  String.prefix old s = true -> (String.length old <= String.length s)%nat.
Proof.
  revert old. induction s as [|c r IH]; intros [|a old]; simpl;
    try discriminate; try lia.
  destruct (Ascii.ascii_dec a c); [|discriminate].
  intros H. apply IH in H. lia.
Qed.

Lemma replace_absent (old new s : string) :
  annotate.occurs old s = false -> annotate.replace old new s = s.
Proof.
  unfold annotate.replace. induction s as [|c r IH].
  - reflexivity.
  - cbn [annotate.occurs annotate.replace_from].
    intros H. apply orb_false_iff in H. destruct H as [Hp Hr].
    rewrite Hp, (IH Hr). reflexivity.
Qed.

Lemma replace_from_length (old new s : string) (skip : nat) :
  (0 < String.length old <= String.length new)%nat ->
  (String.length s - skip
   <= String.length (annotate.replace_from skip old new s))%nat.
Proof.
  intros Hlen. revert skip. induction s as [|c r IH]; intros skip.
  - simpl. lia.
  - cbn [annotate.replace_from]. destruct skip as [|k].
    + destruct (String.prefix old (String c r)) eqn:Hp.
      * apply prefix_length in Hp. rewrite length_append.
        specialize (IH (String.length old - 1)%nat).
        cbn [String.length] in *. lia.
      * specialize (IH 0%nat). cbn [String.length] in *. lia.
    + specialize (IH k). cbn [String.length] in *. lia.
Qed.

Lemma replace_present_length (old new s : string) :
  (0 < String.length old < String.length new)%nat ->
  annotate.occurs old s = true ->
  (String.length s < String.length (annotate.replace old new s))%nat.
Proof.
  intros Hlen. unfold annotate.replace. induction s as [|c r IH].
  - cbn [annotate.occurs]. rewrite orb_false_r. intros Hp.
    apply prefix_length in Hp. simpl in *. lia.
  - cbn [annotate.occurs annotate.replace_from].
    destruct (String.prefix old (String c r)) eqn:Hp.
    + intros _. apply prefix_length in Hp. rewrite length_append.
      pose proof (replace_from_length old new r (String.length old - 1)
                    ltac:(lia)).
      cbn [String.length] in *. lia.
    + cbn [orb]. intros Hr. apply IH in Hr. cbn [String.length]. lia.
Qed.

(** X24. The annotated chart is saved under a path of its own exactly when
    the lower-case text [.png] or [.jpg] occurs in the path of the image:
    otherwise, as for [chart.jpeg] or [chart.PNG], the annotated path is the
    path of the image itself.  The annotated path is never shorter. *)
Theorem X24_annotated_path_may_be_the_original (image_path : string) :
  (annotate.annotated_path image_path = image_path <->
   annotate.occurs ".png" image_path = false /\
   annotate.occurs ".jpg" image_path = false) /\
  (String.length image_path
   <= String.length (annotate.annotated_path image_path))%nat.
Proof.
  unfold annotate.annotated_path.
  assert (Hge : forall old new s : string,
            (0 < String.length old <= String.length new)%nat ->
            (String.length s <= String.length (annotate.replace old new s))%nat).
  { intros old new s H.
    pose proof (replace_from_length old new s 0 H) as H0.
    unfold annotate.replace. lia. }
  pose proof (Hge ".png"%string "_annotated.png"%string image_path ltac:(simpl; lia))
    as H1.
  pose proof (Hge ".jpg"%string "_annotated.jpg"%string
                (annotate.replace ".png" "_annotated.png" image_path)
                ltac:(simpl; lia)) as H2.
  split; [|lia].
  destruct (annotate.occurs ".png" image_path) eqn:Ep.
  - pose proof (replace_present_length ".png" "_annotated.png" image_path
                  ltac:(simpl; lia) Ep) as H3.
    split; [|intros [? _]; discriminate].
    intros E. rewrite E in H2. lia.
  - rewrite (replace_absent _ _ _ Ep) in *.
    destruct (annotate.occurs ".jpg" image_path) eqn:Ej.
    + pose proof (replace_present_length ".jpg" "_annotated.jpg" image_path
                    ltac:(simpl; lia) Ej) as H3.
      split; [|intros [_ ?]; discriminate].
      intros E. rewrite E in H3. lia.
    + rewrite (replace_absent _ _ _ Ej). split; [auto | reflexivity].
Qed.

(* ================================================================== *)
(** ** The further properties on concrete inputs *)

Lemma X3_negative_price_witness :
  proximity_rule (quiet (-5)%Q 1%Q 2%Q) ([], []) = ([BUY], [0.15%Q]).
Proof.
  apply (X3_negative_price_votes_buy (quiet (-5)%Q 1%Q 2%Q) ([], []) (-5)%Q).
  - reflexivity.
  - reflexivity.
  - reflexivity.
Defined.

Lemma X4_cleaned_columns_witness :
  exists xs : list float,
    float_column (cleaned (normalize (dated_table 25))) "close" = Ok xs /\
    List.length xs = len (cleaned (normalize (dated_table 25))) /\
    len (cleaned (normalize (dated_table 25)))
    = List.length (valid_rows (normalize (dated_table 25))) /\
    Forall (fun x => is_nan x = false) xs.
Proof.
  apply (X4_cleaned_columns_hold_numbers (normalize (dated_table 25)) "close").
  - vm_compute. reflexivity.
  - simpl. tauto.
Defined.

Lemma X5_support_below_resistance_witness :
  leb 104%Q 125%Q = true.
Proof.
  apply (X5_support_below_resistance
           (cleaned (normalize (dated_table 25)))
           (rising_series (-1) 25) (rising_series 1 25) 104%Q 125%Q).
  - vm_compute. reflexivity.
  - vm_compute. reflexivity.
  - discriminate.
  - vm_compute. repeat constructor.
  - vm_compute. reflexivity.
Defined.


Lemma X9_image_levels_witness :
  let d :=
    _generate_image_based_signal
      {| trend_lines := 3; bullish_pattern := true; bearish_pattern := false |}
      "1h" 1900%Q in
  (leb 1800%Q (price d "entry") = true /\
   leb (price d "entry") 2100%Q = true) /\
  (get d "action" = Some (VStr "BUY") ->
     ltb (price d "stop_loss") (price d "entry") = true /\
     ltb (price d "entry") (price d "take_profit") = true) /\
  (get d "action" = Some (VStr "SELL") ->
     ltb (price d "take_profit") (price d "entry") = true /\
     ltb (price d "entry") (price d "stop_loss") = true) /\
  (get d "action" = Some (VStr "HOLD") ->
     price d "take_profit" = price d "entry" /\
     price d "stop_loss" = price d "entry").
Proof.
  apply (X9_image_levels_ordered
           {| trend_lines := 3; bullish_pattern := true;
              bearish_pattern := false |} "1h" 1900%Q).
  - reflexivity.
  - reflexivity.
Defined.

Lemma X11_risk_sizes_witness :
  exists d : dict,
    main.risk_calculator 10000%Q 50%Q 2%Q = Returns d /\
    leb 0%Q (price d "position_size") = true /\
    leb (price d "risk_amount") (round 10000%Q 2) = true /\
    price d "max_loss" = price d "risk_amount" /\
    leb (price d "max_loss") (price d "potential_profit") = true /\
    recommendation d "normal" = price d "position_size" /\
    leb (recommendation d "conservative") (recommendation d "normal") = true /\
    leb (recommendation d "normal") (recommendation d "aggressive") = true.
Proof.
  apply (X11_risk_sizes_ordered 10000 50 2).
  - reflexivity.
  - reflexivity.
Defined.

Lemma X15_returned_body_witness :
  exists (name : string) (signal : dict),
    filename dated_upload = Some name /\
    contains main.allowed_extensions (lower (last_component name)) = true /\
    contains main.valid_timeframes "1h" = true /\
    get dated_body "file_processed" = Some (VStr name) /\
    get dated_body "signal" = Some (VDict signal) /\
    ~ is_error_signal signal /\
    get signal "error" = None /\
    get signal "timeframe" = Some (VStr "1h") /\
    get signal "analysis_type"
      = Some (VStr (if String.eqb (lower (last_component name)) "csv"
                    then "technical_indicators" else "chart_pattern")).
Proof.
  apply (X15_returned_body_is_checked ta_stub unit (fun _ => None)
           (fun _ _ => NaN) str_of_text (fun _ _ _ => true)
           dated_upload "1h" "u1" 1900%Q dated_body).
  vm_compute. reflexivity.
Defined.

Lemma X17_analyzer_error_witness :
  exists msg : string,
    get (main.analysis ta_stub unit (fun _ => None) (fun _ _ => NaN)
           no_low_upload (lower (last_component "gold.csv")) "1h" 1900%Q)
      "message" = Some (VStr msg) /\
    analyze_upload no_low_upload = HTTPException 400 (VStr msg).
Proof.
  apply (X17_analyzer_error_becomes_400 ta_stub unit (fun _ => None)
           (fun _ _ => NaN) str_of_text (fun _ _ _ => true)
           no_low_upload "gold.csv" "1h" "u1" 1900%Q tt).
  - reflexivity.
  - discriminate.
  - reflexivity.
  - reflexivity.
  - reflexivity.
  - vm_compute. reflexivity.
Defined.

Lemma X19_malformed_document_witness :
  firebase_service.get_user_stats float_rejects true
    (Ok [ ("doc1"%string, unpriced_document) ])
  = firebase_service._mock_user_stats.
Proof.
  apply (X19_malformed_document_gives_mock_statistics float_rejects
           [ ("doc1"%string, unpriced_document) ] "doc1" unpriced_document).
  - simpl. tauto.
  - right.
    exists [ ("action", VStr "BUY"); ("outcome", VStr "WIN");
             ("pnl", VStr "n/a") ]%string.
    exists (VStr "n/a").
    repeat split; try reflexivity.
    eexists. reflexivity.
Defined.

Lemma X2_nan_rsi_witness :
  rsi_rule (quiet 100%Q 95%Q 105%Q) ([], []) = ([], []).
Proof.
  apply (proj1 (proj2 (X2_nan_inputs_cast_no_vote
                         (quiet 100%Q 95%Q 105%Q) ([], [])))).
  reflexivity.
Defined.

Lemma X14_position_size_witness :
  exists position_size : float,
    risk.calculate_position_size 10000%Q 50%Q 2%Q
    = Ok (round position_size 2) /\
    get (match main.risk_calculator 10000%Q 50%Q 2%Q with
         | Returns d => d
         | _ => []
         end) "position_size"
    = Some (VFloat (round position_size 4)).
Proof.
  apply (X14_position_size_without_validation 10000%Q 50%Q 2%Q).
  reflexivity.
Defined.

Lemma X16_failed_upload_witness :
  analyze_upload full_disk_upload
  = HTTPException 500
      (VStr "Analysis failed: [Errno 28] No space left on device").
Proof.
  apply (proj2 (proj2 (X16_only_a_failed_upload_gives_500 ta_stub unit
                         (fun _ => None) (fun _ _ => NaN) str_of_text
                         (fun _ _ _ => true) full_disk_upload "1h" "u1"
                         1900%Q))
           "gold.csv"%string "[Errno 28] No space left on device"%string).
  - reflexivity.
  - discriminate.
  - reflexivity.
  - reflexivity.
  - reflexivity.
Defined.

Lemma X21_unsupported_extension_witness :
  analyze_upload notes_upload
  = HTTPException 400 (VStr "Unsupported file type. Use JPG, PNG, or CSV.") /\
  simple_upload notes_upload "1h"
  = HTTPException 500
      (VStr "Analysis failed: Unsupported file type. Use JPG, PNG, or CSV.").
Proof.
  apply (X21_simple_handler_never_answers_400 (hd ""%string)
           (fun lo _ => lo) (fun a _ => a) 0%Q
           (fun _ detail => str_of_text detail) unit ta_stub
           (fun _ => None) (fun _ _ => NaN) str_of_text (fun _ _ _ => true)
           notes_upload "1h" "u1" 1900%Q) with (name := "notes.txt"%string).
  - reflexivity.
  - discriminate.
  - reflexivity.
Defined.

Lemma X22_any_timeframe_witness :
  (exists detail,
     main.analyze ta_stub unit (fun _ => None) (fun _ _ => NaN) str_of_text
       (fun _ _ _ => true) dated_upload "2h" "u1" 1900%Q
     = HTTPException 400 detail) /\
  exists body signal : dict,
    simple_upload dated_upload "2h" = Returns body /\
    get body "file_processed" = Some (VStr "gold.CSV") /\
    get body "signal" = Some (VDict signal) /\
    get signal "timeframe" = Some (VStr "2h").
Proof.
  apply (X22_simple_handler_accepts_any_timeframe (hd ""%string)
           (fun lo _ => lo) (fun a _ => a) 0%Q
           (fun _ detail => str_of_text detail) unit ta_stub
           (fun _ => None) (fun _ _ => NaN) str_of_text (fun _ _ _ => true)
           dated_upload "gold.CSV" "2h" "u1" 1900%Q tt).
  - reflexivity.
  - discriminate.
  - reflexivity.
  - reflexivity.
  - reflexivity.
Defined.

Lemma X23_simple_signal_witness :
  exists signal : dict,
    get simple_body "signal" = Some (VDict signal) /\
    leb 1800%Q (price signal "entry") = true /\
    leb (price signal "entry") 2100%Q = true /\
    ((get signal "action" = Some (VStr "BUY") /\
      leb (price signal "stop_loss") (price signal "entry") = true /\
      leb (price signal "entry") (price signal "take_profit") = true) \/
     (get signal "action" = Some (VStr "SELL") /\
      leb (price signal "take_profit") (price signal "entry") = true /\
      leb (price signal "entry") (price signal "stop_loss") = true)).
Proof.
  apply (X23_simple_signal_levels (hd ""%string) (fun lo _ => lo)
           (fun a _ => a) 0%Q (fun _ detail => str_of_text detail) unit
           dated_upload "2h" "u1" simple_body).
  - intros lo hi H. split; apply leb_Fin; [apply Qle_refl | exact H].
  - intros [|action actions] H; [congruence | left; reflexivity].
  - vm_compute. reflexivity.
Defined.

(** Two wins and a loss out of three signals: a win rate of 66.7, and the
    integer [0] for a sum without terms. *)
Example statistics_of_three_trades :
  firebase_service.get_user_stats float_rejects true (Ok three_trades)
  = [ ("total_signals", VInt 3); ("wins", VInt 2); ("losses", VInt 1);
      ("win_rate", VFloat 66.7%Q); ("total_pnl", VInt 0);
      ("avg_confidence", VFloat 78.5%Q); ("best_timeframe", VStr "1h") ]%string.
Proof. vm_compute. reflexivity. Qed.

(** Risking 2% of 10000 with a stop loss of 50. *)
Example risk_of_two_percent :
  main.risk_calculator 10000%Q 50%Q 2%Q
  = Returns
      [ ("account_size", VFloat 10000%Q); ("risk_percentage", VFloat 2%Q);
        ("risk_amount", VFloat 200%Q); ("stop_loss", VFloat 50%Q);
        ("position_size", VFloat 4%Q); ("max_loss", VFloat 200%Q);
        ("potential_profit", VFloat 400%Q);
        ("reward_risk_ratio", VFloat 2%Q);
        ("recommendations",
          VDict [ ("conservative", VFloat 2%Q); ("normal", VFloat 4%Q);
                  ("aggressive", VFloat 6%Q) ]) ]%string.
Proof. vm_compute. reflexivity. Qed.

Example annotated_png :
  annotate.annotated_path "uploads/chart.png" = "uploads/chart_annotated.png"%string.
Proof. reflexivity. Qed.

Example annotated_jpeg :
  annotate.annotated_path "uploads/chart.jpeg" = "uploads/chart.jpeg"%string.
Proof. reflexivity. Qed.

(** Both replacements apply to a path that holds both texts. *)
Example annotated_twice :
  annotate.annotated_path "charts.png/gold.jpg"
  = "charts_annotated.png/gold_annotated.jpg"%string.
Proof. reflexivity. Qed.
